(** * logger: a facade over the zap logging engine

    The package under verification is [src/logger/logger.go]: a constructor
    that translates a three-field [LogConfig] into a [zap.Config] and builds
    an engine instance from it, delegating emission methods, and free
    functions that build field descriptors.

    The engine (go.uber.org/zap and go.uber.org/zap/zapcore) is not part of
    the package.  Its API surface, as far as the package calls it, is
    modelled in the modules [zapcore] and [zap] below; the package itself is
    embedded, function by function, in the module [logger]. *)

From Stdlib Require Import ZArith String Ascii List Bool Lia.
From stdpp Require Import base option list gmap strings.

Import ListNotations.
Local Open Scope string_scope.
Local Open Scope list_scope.
Local Open Scope Z_scope.

Set Warnings "-register-all".

(** ** What is taken from the Go runtime *)

(** Two functions of the Go standard library reach the package through the
    engine's level parser and its error messages.  Both depend on Unicode
    tables, so they are taken as given. *)
Class GoStd := {
  (** [bytes.ToLower] *)
  bytes_ToLower : string -> string;
  (** [strconv.Quote], which is what the verb [%q] prints *)
  strconv_Quote : string -> string;
}.

(** On text made of printable ASCII characters the two functions are the
    following; this instance serves to run the definitions on such text. *)
Definition ascii_lower (c : ascii) : ascii :=
  let n := nat_of_ascii c in
  if ((65 <=? n) && (n <=? 90))%nat then ascii_of_nat (n + 32) else c.

Fixpoint ascii_ToLower (s : string) : string :=
  match s with
  | EmptyString => EmptyString
  | String c rest => String (ascii_lower c) (ascii_ToLower rest)
  end.

Definition quote_char : ascii := "034"%char.
Definition backslash_char : ascii := "092"%char.

Fixpoint ascii_escape (s : string) : string :=
  match s with
  | EmptyString => EmptyString
  | String c rest =>
      if decide (c = quote_char) then String backslash_char (String c (ascii_escape rest))
      else if decide (c = backslash_char)
      then String backslash_char (String c (ascii_escape rest))
      else String c (ascii_escape rest)
  end.

Definition ascii_Quote (s : string) : string :=
  String quote_char (ascii_escape s +:+ String quote_char EmptyString).

Definition ascii_text : GoStd :=
  {| bytes_ToLower := ascii_ToLower; strconv_Quote := ascii_Quote |}.

(** A non-nil Go [error], by what the engine can observe of it:
    - [errorString]: an error of which only the text that [Error()] returns
      can be observed, as [errors.New] and [fmt.Errorf] build;
    - [errorFormatter]: an error that also implements [fmt.Formatter]; the
      second text is what the verb [%+v] prints for it (the errors of
      github.com/pkg/errors, with their stack);
    - [errorGroup]: an error with a method [Errors() []error], as multierr
      builds; the list holds the non-nil members.
    An error whose methods panic is not modelled. *)
Inductive error :=
| errorString (text : string)
| errorFormatter (text verbose : string)
| errorGroup (text : string) (causes : list error).

(** [err.Error()] *)
Definition Error_text (err : error) : string :=
  match err with
  | errorString text | errorFormatter text _ | errorGroup text _ => text
  end.

#[global] Instance error_eq_dec : EqDecision error.
Proof.
  refine (fix go (x y : error) {struct x} : Decision (x = y) :=
            match x, y with
            | errorString a, errorString b =>
                cast_if (decide (a = b))
            | errorFormatter a v, errorFormatter b v' =>
                cast_if_and (decide (a = b)) (decide (v = v'))
            | errorGroup a cs, errorGroup b cs' =>
                cast_if_and (decide (a = b)) (@list_eq_dec _ go cs cs')
            | _, _ => right _
            end); congruence.
Defined.

(** A value of type [error] is an interface value: either [nil] or an
    error. *)
Definition error_iface := option error.

(** [fmt.Errorf(prefix + "%v", err)] *)
Definition Errorf_v (prefix : string) (err : error) : error :=
  errorString (prefix +:+ Error_text err).

(** [fmt.Errorf(prefix + "%q", text)] *)
Definition Errorf_q `{GoStd} (prefix : string) (text : string) : error :=
  errorString (prefix +:+ strconv_Quote text).

(** [multierr.Combine]: nothing for no error, the error itself for one, and
    otherwise an error whose text joins the texts with a semicolon. *)
Fixpoint join_errors (errs : list error) : string :=
  match errs with
  | [] => ""
  | [e] => Error_text e
  | e :: rest => Error_text e +:+ "; " +:+ join_errors rest
  end.

Definition multierr_Combine (errs : list error) : error_iface :=
  match errs with
  | [] => None
  | [e] => Some e
  | _ => Some (errorString (join_errors errs))
  end.

(** ** zapcore: levels, fields and their encoding *)

Module zapcore.

(** [type Level int8] with its named constants. *)
Inductive Level :=
| DebugLevel | InfoLevel | WarnLevel | ErrorLevel
| DPanicLevel | PanicLevel | FatalLevel.

#[global] Instance Level_eq_dec : EqDecision Level.
Proof. solve_decision. Defined.

(** The [int8] behind each constant: [DebugLevel = -1], then [iota]. *)
Definition Level_int8 (l : Level) : Z :=
  match l with
  | DebugLevel => -1
  | InfoLevel => 0
  | WarnLevel => 1
  | ErrorLevel => 2
  | DPanicLevel => 3
  | PanicLevel => 4
  | FatalLevel => 5
  end.

(** [func (l Level) Enabled(lvl Level) bool { return lvl >= l }] *)
Definition Enabled (l lvl : Level) : bool := Level_int8 l <=? Level_int8 lvl.

(** [func (l *Level) unmarshalText(text []byte) bool]: the switch on the
    text; [None] is the [default] branch. *)
Definition unmarshalText (text : string) : option Level :=
  if decide (text = "debug") then Some DebugLevel
  else if decide (text = "DEBUG") then Some DebugLevel
  else if decide (text = "info") then Some InfoLevel
  else if decide (text = "INFO") then Some InfoLevel
  else if decide (text = "") then Some InfoLevel
  else if decide (text = "warn") then Some WarnLevel
  else if decide (text = "WARN") then Some WarnLevel
  else if decide (text = "error") then Some ErrorLevel
  else if decide (text = "ERROR") then Some ErrorLevel
  else if decide (text = "dpanic") then Some DPanicLevel
  else if decide (text = "DPANIC") then Some DPanicLevel
  else if decide (text = "panic") then Some PanicLevel
  else if decide (text = "PANIC") then Some PanicLevel
  else if decide (text = "fatal") then Some FatalLevel
  else if decide (text = "FATAL") then Some FatalLevel
  else None.

Section Parse.
Context `{GoStd}.

(** [func (l *Level) UnmarshalText(text []byte) error]: the text as it is,
    then lowered; failing both, the error
    [fmt.Errorf("unrecognized level: %q", text)]. *)
Definition UnmarshalText (text : string) : Level + error :=
  match unmarshalText text with
  | Some l => inl l
  | None =>
      match unmarshalText (bytes_ToLower text) with
      | Some l => inl l
      | None => inr (Errorf_q "unrecognized level: " text)
      end
  end.

End Parse.

(** A value of type [interface{}], by its dynamic type.  The dynamic types
    kept are those the package's own constructors take, [time.Duration], and
    [other_any] for a value of a type that [zap.Any] has no case for (a
    struct, a map); [float64] and [time.Duration] values are carried as the
    64 bits that a field stores for them. *)
Inductive any :=
| nil_any
| bool_any (b : bool)
| int_any (n : Z)
| int64_any (n : Z)
| float64_any (bits : Z)
| string_any (s : string)
| Duration_any (d : Z)
| error_any (e : error)
| other_any (v : string).

(** [type FieldType uint8]: the tags that occur here. *)
Inductive FieldType :=
| BoolType | DurationType | Float64Type | Int64Type
| StringType | ReflectType | ErrorType | SkipType.

(** [type Field struct { Key; Type; Integer; String; Interface }].  The
    struct is a tagged union: [Type] says which of the other members is
    meant.  A field is kept here as the tag with the members it uses, which
    are the combinations that the constructors of package zap build. *)
Inductive Field :=
| BoolField (key : string) (val : bool)
| DurationField (key : string) (val : Z)
| Float64Field (key : string) (bits : Z)
| Int64Field (key : string) (val : Z)
| StringField (key : string) (val : string)
| ReflectField (key : string) (val : any)
| ErrorField (key : string) (err : error)
| SkipField.

Definition Field_Type (f : Field) : FieldType :=
  match f with
  | BoolField _ _ => BoolType
  | DurationField _ _ => DurationType
  | Float64Field _ _ => Float64Type
  | Int64Field _ _ => Int64Type
  | StringField _ _ => StringType
  | ReflectField _ _ => ReflectType
  | ErrorField _ _ => ErrorType
  | SkipField => SkipType
  end.

Definition Field_Key (f : Field) : string :=
  match f with
  | BoolField k _ | DurationField k _ | Float64Field k _ | Int64Field k _
  | StringField k _ | ReflectField k _ | ErrorField k _ => k
  | SkipField => ""
  end.

(** What an [ObjectEncoder] is handed under a key: the argument of its
    [AddBool], [AddDuration], [AddFloat64], [AddInt64], [AddString] or
    [AddReflected]; for [AddArray], the elements the array marshaler
    appends, and for an object appended to an array, the pairs its marshaler
    adds. *)
Inductive Value :=
| BoolValue (b : bool)
| DurationValue (d : Z)
| Float64Value (bits : Z)
| Int64Value (n : Z)
| StringValue (s : string)
| ReflectedValue (v : any)
| ArrayValue (elems : list Value)
| ObjectValue (pairs : list (string * Value)).

(** The state of an [ObjectEncoder]: the pairs added so far, in order. *)
Definition ObjectEncoder := list (string * Value).

(** What [encodeError] adds after the text of the error, by the switch on
    its type: for an error group, under the key followed by "Causes", the
    array of its members, each an object encoded by [encodeError] under the
    key "error"; for a formatter, under the key followed by "Verbose", the
    verbose text when it differs from the text; nothing otherwise. *)
Fixpoint errorExtra (key : string) (err : error) : ObjectEncoder :=
  match err with
  | errorString _ => []
  | errorFormatter basic verbose =>
      if decide (verbose = basic) then []
      else [(key +:+ "Verbose", StringValue verbose)]
  | errorGroup _ causes =>
      [(key +:+ "Causes",
        ArrayValue
          (map (fun cause =>
                  ObjectValue (("error", StringValue (Error_text cause))
                               :: errorExtra "error" cause))
             causes))]
  end.

(** [func encodeError(key string, err error, enc ObjectEncoder)]: the pairs
    it adds, the text of the error under the key first. *)
Definition encodeError (key : string) (err : error) : ObjectEncoder :=
  (key, StringValue (Error_text err)) :: errorExtra key err.

(** [func (f Field) AddTo(enc ObjectEncoder)]: one [Add...] call by the tag;
    an error field goes through [encodeError], a skip field adds nothing. *)
Definition AddTo (f : Field) (enc : ObjectEncoder) : ObjectEncoder :=
  match f with
  | BoolField k b => enc ++ [(k, BoolValue b)]
  | DurationField k d => enc ++ [(k, DurationValue d)]
  | Float64Field k bits => enc ++ [(k, Float64Value bits)]
  | Int64Field k n => enc ++ [(k, Int64Value n)]
  | StringField k s => enc ++ [(k, StringValue s)]
  | ReflectField k v => enc ++ [(k, ReflectedValue v)]
  | ErrorField k e => enc ++ encodeError k e
  | SkipField => enc
  end.

(** [func addFields(enc ObjectEncoder, fields []Field)] *)
Definition addFields (enc : ObjectEncoder) (fields : list Field) : ObjectEncoder :=
  fold_left (fun e f => AddTo f e) fields enc.

(** The encoder functions that an [EncoderConfig] can name; [None] in the
    configuration is Go's [nil]. *)
Inductive LevelEncoder :=
| LowercaseLevelEncoder | CapitalLevelEncoder.
Inductive TimeEncoder :=
| EpochTimeEncoder | ISO8601TimeEncoder | RFC3339TimeEncoder.
Inductive DurationEncoder :=
| SecondsDurationEncoder | NanosDurationEncoder | StringDurationEncoder.
Inductive CallerEncoder :=
| FullCallerEncoder | ShortCallerEncoder.

(** [type EncoderConfig struct]; members the package leaves unset have Go's
    zero value. *)
Record EncoderConfig := {
  MessageKey : string;
  LevelKey : string;
  TimeKey : string;
  NameKey : string;
  CallerKey : string;
  FunctionKey : string;
  StacktraceKey : string;
  LineEnding : string;
  EncodeLevel : option LevelEncoder;
  EncodeTime : option TimeEncoder;
  EncodeDuration : option DurationEncoder;
  EncodeCaller : option CallerEncoder;
}.

Definition OmitKey : string := "".
(** ["\n"] *)
Definition DefaultLineEnding : string := String "010"%char "".

(** [type Entry struct]: the level and the message.  The time, the caller
    and the stack trace of an entry are not modelled, and the logger name is
    empty throughout (nothing here calls [Named]). *)
Record Entry := {
  Entry_Level : Level;
  Entry_Message : string;
}.

(** An encoder as [ioCore] holds it: which registered encoder it is, its
    configuration, and the fields already added to it. *)
Record Encoder := {
  enc_name : string;
  enc_config : EncoderConfig;
  enc_fields : ObjectEncoder;
}.

(** What [EncodeEntry] turns into one line of output: the entry and the
    pairs of the context followed by those of the call. *)
Record Line := {
  line_entry : Entry;
  line_fields : ObjectEncoder;
}.

(** [func (enc) EncodeEntry(ent Entry, fields []Field)]: works on a clone of
    the encoder, so the encoder's own fields stay as they are. *)
Definition EncodeEntry (enc : Encoder) (ent : Entry) (fields : list Field) : Line :=
  {| line_entry := ent; line_fields := addFields (enc_fields enc) fields |}.

(** [type ioCore struct { LevelEnabler; enc Encoder; out WriteSyncer }].
    The write syncer is the list of the destinations it combines, each named
    by the path it was opened with. *)
Record ioCore := {
  LevelEnabler : Level;
  enc : Encoder;
  out : list string;
}.

(** [func NewCore(enc Encoder, ws WriteSyncer, enab LevelEnabler) Core] *)
Definition NewCore (e : Encoder) (ws : list string) (enab : Level) : ioCore :=
  {| LevelEnabler := enab; enc := e; out := ws |}.

(** [func (c *ioCore) With(fields []Field) Core]: a clone whose encoder has
    the fields added. *)
Definition ioCore_With (c : ioCore) (fields : list Field) : ioCore :=
  {| LevelEnabler := LevelEnabler c;
     enc := {| enc_name := enc_name (enc c);
               enc_config := enc_config (enc c);
               enc_fields := addFields (enc_fields (enc c)) fields |};
     out := out c |}.

End zapcore.

(** ** A Go process *)

(** How a call ends: it returns, or the process exits with a code
    ([os.Exit]), or it panics.  Each carries the state the call leaves. *)
Inductive Outcome (S A : Type) :=
| Returned (a : A) (s : S)
| Exited (code : Z) (s : S)
| Panicked (s : S).
Arguments Returned {S A} a s.
Arguments Exited {S A} code s.
Arguments Panicked {S A} s.

(** A call that runs on a state. *)
Definition Run (S A : Type) : Type := S -> Outcome S A.

Definition ret {S A} (a : A) : Run S A := fun s => Returned a s.

(** Sequencing: what follows an exit or a panic does not run. *)
Definition bind {S A B} (m : Run S A) (k : A -> Run S B) : Run S B :=
  fun s =>
    match m s with
    | Returned a s' => k a s'
    | Exited code s' => Exited code s'
    | Panicked s' => Panicked s'
    end.

Declare Scope run_scope.
Delimit Scope run_scope with run.
Notation "x <- m ;; k" := (bind m (fun x => k))
  (at level 100, m at next level, right associativity) : run_scope.
Notation "m ;;; k" := (bind m (fun _ => k))
  (at level 100, right associativity) : run_scope.

Module os.
(** [os.Exit(code)] *)
Definition Exit {S} (code : Z) : Run S unit := fun s => Exited code s.
End os.

(** ** zap: configuration, construction and the logger *)

Module zap.

(** [type Field = zapcore.Field] and the constructors of field.go and
    error.go. *)
Definition Field := zapcore.Field.

Definition Skip : Field := zapcore.SkipField.

Definition Bool (key : string) (val : bool) : Field := zapcore.BoolField key val.

Definition Int64 (key : string) (val : Z) : Field := zapcore.Int64Field key val.

(** [func Int(key string, val int) Field { return Int64(key, int64(val)) }] *)
Definition Int (key : string) (val : Z) : Field := Int64 key val.

(** The field stores [math.Float64bits(val)]; a float64 is carried as those
    bits. *)
Definition Float64 (key : string) (val : Z) : Field := zapcore.Float64Field key val.

Definition String (key : string) (val : string) : Field := zapcore.StringField key val.

Definition Duration (key : string) (val : Z) : Field := zapcore.DurationField key val.

Definition Reflect (key : string) (val : zapcore.any) : Field :=
  zapcore.ReflectField key val.

(** [func NamedError(key string, err error) Field]: a nil error gives
    [Skip()]. *)
Definition NamedError (key : string) (err : error_iface) : Field :=
  match err with
  | None => Skip
  | Some e => zapcore.ErrorField key e
  end.

(** [func Error(err error) Field { return NamedError("error", err) }] *)
Definition Error (err : error_iface) : Field := NamedError "error" err.

(** [func Any(key string, value interface{}) Field]: the type switch, with
    [Reflect] as its default. *)
Definition Any (key : string) (value : zapcore.any) : Field :=
  match value with
  | zapcore.bool_any b => Bool key b
  | zapcore.int_any n => Int key n
  | zapcore.int64_any n => Int64 key n
  | zapcore.float64_any bits => Float64 key bits
  | zapcore.string_any s => String key s
  | zapcore.Duration_any d => Duration key d
  | zapcore.error_any e => NamedError key (Some e)
  | zapcore.nil_any | zapcore.other_any _ => Reflect key value
  end.

(** [type Logger struct]: the members that calls made here can reach.
    [addStack] is a level enabler; [None] is [FatalLevel + 1], which no
    entry reaches. *)
Record Logger := {
  core : zapcore.ioCore;
  development : bool;
  addCaller : bool;
  errorOutput : list string;
  addStack : option zapcore.Level;
  callerSkip : Z;
}.

(** A [*zap.Logger]: the index of an instance among those allocated. *)
Definition ptr := nat.

(** The state a process runs on.
    - [fs_open]: the environment.  For a path other than the two standard
      streams it says what opening that path as a sink gives: [None] when it
      opens, or the error.  URL parsing, sink schemes and the file system
      are all behind it.
    - [sinks]: the lines written so far to each destination.  A destination
      is named by the path it was opened with; two spellings of one file are
      two names.
    - [heap]: the logger instances allocated so far. *)
Record World := {
  fs_open : string -> option error;
  sinks : gmap string (list zapcore.Line);
  heap : list Logger;
}.

Definition Go (A : Type) : Type := Run World A.

Definition set_sinks (w : World) (s : gmap string (list zapcore.Line)) : World :=
  {| fs_open := fs_open w; sinks := s; heap := heap w |}.

Definition set_heap (w : World) (h : list Logger) : World :=
  {| fs_open := fs_open w; sinks := sinks w; heap := h |}.

(** A new instance: the pointer to it is the next free index. *)
Definition alloc (log : Logger) : Go ptr :=
  fun w => Returned (length (heap w)) (set_heap w (heap w ++ [log])).

(** Reading through a pointer; a pointer to nothing panics, as a nil
    pointer does. *)
Definition deref (p : ptr) : Go Logger :=
  fun w =>
    match heap w !! p with
    | Some log => Returned log w
    | None => Panicked w
    end.

(** What a destination holds. *)
Definition written (w : World) (path : string) : list zapcore.Line :=
  default [] (sinks w !! path).

(** [WriteSyncer.Write] on one destination: the line goes after what is
    there. *)
Definition write_to (path : string) (ln : zapcore.Line) (w : World) : World :=
  set_sinks w (<[path := written w path ++ [ln]]> (sinks w)).

(** The combined write syncer writes to each destination in turn. *)
Definition write_all (paths : list string) (ln : zapcore.Line) (w : World) : World :=
  fold_left (fun w' p => write_to p ln w') paths w.

(** [func NewAtomicLevel() AtomicLevel]: a level holder that starts at
    [InfoLevel].  The holder is carried as the level it holds: nothing here
    keeps a second reference to it, so nothing can set it later. *)
Definition NewAtomicLevel : zapcore.Level := zapcore.InfoLevel.

(** [func (lvl *AtomicLevel) UnmarshalText(text []byte) error]: parses with
    [zapcore.Level.UnmarshalText]; on success the holder is set, on failure
    it keeps its level and the error comes back. *)
Definition AtomicLevel_UnmarshalText `{GoStd} (lvl : zapcore.Level) (text : string)
  : zapcore.Level * error_iface :=
  match zapcore.UnmarshalText text with
  | inl l => (l, None)
  | inr err => (lvl, Some err)
  end.

(** [type Config struct].  [Level] is an [AtomicLevel]; [None] is its zero
    value [AtomicLevel{}].  [Sampling] and [InitialFields] are left out: the
    package never sets them, and [Build] skips both when they are nil. *)
Record Config := {
  Level : option zapcore.Level;
  Development : bool;
  DisableCaller : bool;
  DisableStacktrace : bool;
  Encoding : string;
  EncoderConfig : zapcore.EncoderConfig;
  OutputPaths : list string;
  ErrorOutputPaths : list string;
}.

(** [type Option]: a change applied to a logger under construction. *)
Definition Option := Logger -> Logger.

Definition ErrorOutput (ws : list string) : Option := fun log =>
  {| core := core log; development := development log; addCaller := addCaller log;
     errorOutput := ws; addStack := addStack log; callerSkip := callerSkip log |}.

(** [func Development() Option] *)
Definition Development_option : Option := fun log =>
  {| core := core log; development := true; addCaller := addCaller log;
     errorOutput := errorOutput log; addStack := addStack log;
     callerSkip := callerSkip log |}.

Definition AddCaller : Option := fun log =>
  {| core := core log; development := development log; addCaller := true;
     errorOutput := errorOutput log; addStack := addStack log;
     callerSkip := callerSkip log |}.

Definition AddStacktrace (lvl : zapcore.Level) : Option := fun log =>
  {| core := core log; development := development log; addCaller := addCaller log;
     errorOutput := errorOutput log; addStack := Some lvl;
     callerSkip := callerSkip log |}.

(** [func AddCallerSkip(skip int) Option]: [log.callerSkip += skip] *)
Definition AddCallerSkip (skip : Z) : Option := fun log =>
  {| core := core log; development := development log; addCaller := addCaller log;
     errorOutput := errorOutput log; addStack := addStack log;
     callerSkip := callerSkip log + skip |}.

(** [func (cfg Config) buildOptions(errSink) []Option] *)
Definition buildOptions (cfg : Config) (errSink : list string) : list Option :=
  [ErrorOutput errSink]
  ++ (if Development cfg then [Development_option] else [])
  ++ (if DisableCaller cfg then [] else [AddCaller])
  ++ (if DisableStacktrace cfg then []
      else [AddStacktrace (if Development cfg then zapcore.WarnLevel
                           else zapcore.ErrorLevel)]).

(** The file behind a path comes into being when the path is opened
    (O_CREATE); what it already holds stays (O_APPEND). *)
Definition touch (path : string) (w : World) : World :=
  match sinks w !! path with
  | Some _ => w
  | None => set_sinks w (<[path := []]> (sinks w))
  end.

(** [newSink]: the two standard streams always open; any other path is up
    to the environment. *)
Definition newSink (path : string) : Go (string + error) :=
  fun w =>
    if decide (path = "stdout") then Returned (inl path) w
    else if decide (path = "stderr") then Returned (inl path) w
    else match fs_open w path with
         | Some e => Returned (inr e) w
         | None => Returned (inl path) (touch path w)
         end.

(** The loop of [open]: every path is tried, the sinks and the errors are
    collected. *)
Fixpoint open_each (paths : list string) (writers : list string) (errs : list error)
  : Go (list string * list error) :=
  match paths with
  | [] => ret (writers, errs)
  | path :: rest =>
      bind (newSink path) (fun r =>
        match r with
        | inl sink => open_each rest (writers ++ [sink]) errs
        | inr e => open_each rest writers (errs ++ [e])
        end)
  end.

Local Open Scope run_scope.

(** [func Open(paths ...string) (zapcore.WriteSyncer, func(), error)]: with
    any error the sinks opened are closed again and the errors come back
    combined. *)
Definition Open (paths : list string) : Go (list string + error) :=
  r <- open_each paths [] [] ;;
  match multierr_Combine (snd r) with
  | Some e => ret (inr e)
  | None => ret (inl (fst r))
  end.

(** [func (cfg Config) openSinks() (WriteSyncer, WriteSyncer, error)] *)
Definition openSinks (cfg : Config) : Go ((list string * list string) + error) :=
  r <- Open (OutputPaths cfg) ;;
  match r with
  | inr e => ret (inr e)
  | inl sink =>
      r' <- Open (ErrorOutputPaths cfg) ;;
      match r' with
      | inr e => ret (inr e)
      | inl errSink => ret (inl (sink, errSink))
      end
  end.

(** [func (log *Logger) WithOptions(opts ...Option) *Logger]: a clone with
    the options applied to it. *)
Definition WithOptions (p : ptr) (opts : list Option) : Go ptr :=
  log <- deref p ;;
  alloc (fold_left (fun l (opt : Option) => opt l) opts log).

(** [func New(core zapcore.Core, options ...Option) *Logger] *)
Definition New (c : zapcore.ioCore) (options : list Option) : Go ptr :=
  log <- alloc {| core := c; development := false; addCaller := false;
                  errorOutput := ["stderr"]; addStack := None; callerSkip := 0 |} ;;
  WithOptions log options.

Section Construction.
Context `{GoStd}.

(** [func newEncoder(name string, encoderConfig) (zapcore.Encoder, error)]:
    the registry holds the two encoders that zap registers itself. *)
Definition newEncoder (name : string) (cfg : zapcore.EncoderConfig)
  : zapcore.Encoder + error :=
  if negb (bool_decide (zapcore.TimeKey cfg = ""))
     && bool_decide (zapcore.EncodeTime cfg = None)
  then inr (errorString "missing EncodeTime in EncoderConfig")
  else if decide (name = "") then inr (errorString "no encoder name specified")
  else if bool_decide (name = "console") || bool_decide (name = "json")
  then inl {| zapcore.enc_name := name; zapcore.enc_config := cfg;
              zapcore.enc_fields := [] |}
  else inr (Errorf_q "no encoder registered for name " name).

(** [func (cfg Config) Build(opts ...Option)], returning a logger or an
    error. *)
Definition Build (cfg : Config) (opts : list Option) : Go (ptr + error) :=
  match newEncoder (Encoding cfg) (EncoderConfig cfg) with
  | inr e => ret (inr e)
  | inl enc =>
      r <- openSinks cfg ;;
      match r with
      | inr e => ret (inr e)
      | inl (sink, errSink) =>
          match Level cfg with
          | None => ret (inr (errorString "missing Level"))
          | Some lvl =>
              log <- New (zapcore.NewCore enc sink lvl) (buildOptions cfg errSink) ;;
              match opts with
              | [] => ret (inl log)
              | _ => log' <- WithOptions log opts ;; ret (inl log')
              end
          end
      end
  end.

End Construction.

(** [type CheckWriteAction]: what follows the write of a checked entry. *)
Inductive CheckWriteAction :=
| WriteThenNoop | WriteThenPanic | WriteThenFatal.

(** [type CheckedEntry struct]: the entry, the cores that will write it and
    the action that follows. *)
Record CheckedEntry := {
  ce_Entry : zapcore.Entry;
  ce_cores : list zapcore.ioCore;
  ce_should : CheckWriteAction;
}.

(** [func (log *Logger) check(lvl zapcore.Level, msg string)
    *zapcore.CheckedEntry]; [None] is the nil entry.  Below [DPanicLevel] a
    disabled level returns at once; otherwise the core registers itself when
    the level is enabled, and panic and fatal levels get their action even
    when nothing will be written. *)
Definition check (log : Logger) (lvl : zapcore.Level) (msg : string)
  : option CheckedEntry :=
  let enabled := zapcore.Enabled (zapcore.LevelEnabler (core log)) lvl in
  if (zapcore.Level_int8 lvl <? zapcore.Level_int8 zapcore.DPanicLevel)
     && negb enabled
  then None
  else
    let ent := {| zapcore.Entry_Level := lvl; zapcore.Entry_Message := msg |} in
    let cores := if enabled then [core log] else [] in
    let ce action := Some {| ce_Entry := ent; ce_cores := cores; ce_should := action |} in
    match lvl with
    | zapcore.PanicLevel => ce WriteThenPanic
    | zapcore.FatalLevel => ce WriteThenFatal
    | zapcore.DPanicLevel =>
        if development log then ce WriteThenPanic
        else if enabled then ce WriteThenNoop else None
    | _ => if enabled then ce WriteThenNoop else None
    end.

(** [func (c *ioCore) Write(ent Entry, fields []Field) error]: the line is
    encoded and goes to the output. *)
Definition ioCore_Write (c : zapcore.ioCore) (ent : zapcore.Entry)
  (fields : list Field) : Go unit :=
  fun w =>
    Returned tt (write_all (zapcore.out c)
                   (zapcore.EncodeEntry (zapcore.enc c) ent fields) w).

Fixpoint write_cores (cores : list zapcore.ioCore) (ent : zapcore.Entry)
  (fields : list Field) : Go unit :=
  match cores with
  | [] => ret tt
  | c :: rest => bind (ioCore_Write c ent fields) (fun _ => write_cores rest ent fields)
  end.

(** [func (ce *CheckedEntry) Write(fields ...Field)]: nothing on nil;
    otherwise every core writes, then the action: a fatal entry ends the
    process with [os.Exit(1)]. *)
Definition CheckedEntry_Write (ce : option CheckedEntry) (fields : list Field)
  : Go unit :=
  match ce with
  | None => ret tt
  | Some ce =>
      write_cores (ce_cores ce) (ce_Entry ce) fields ;;;
      match ce_should ce with
      | WriteThenNoop => ret tt
      | WriteThenPanic => fun w => Panicked w
      | WriteThenFatal => os.Exit 1
      end
  end.

(** The body shared by the level methods:
    [if ce := log.check(lvl, msg); ce != nil { ce.Write(fields...) }] *)
Definition log_at (lvl : zapcore.Level) (p : ptr) (msg : string)
  (fields : list Field) : Go unit :=
  log <- deref p ;;
  CheckedEntry_Write (check log lvl msg) fields.

Definition Logger_Debug := log_at zapcore.DebugLevel.
Definition Logger_Info := log_at zapcore.InfoLevel.
Definition Logger_Warn := log_at zapcore.WarnLevel.
Definition Logger_Error := log_at zapcore.ErrorLevel.
Definition Logger_Fatal := log_at zapcore.FatalLevel.

(** [func (log *Logger) With(fields ...Field) *Logger]: the logger itself
    for no fields, otherwise a clone whose core has the fields added. *)
Definition Logger_With (p : ptr) (fields : list Field) : Go ptr :=
  match fields with
  | [] => ret p
  | _ =>
      log <- deref p ;;
      alloc {| core := zapcore.ioCore_With (core log) fields;
               development := development log; addCaller := addCaller log;
               errorOutput := errorOutput log; addStack := addStack log;
               callerSkip := callerSkip log |}
  end.

End zap.

(** ** The package: logger.go *)

Module logger.

(** [type Logger struct { *zap.Logger }].  The facade is a one-member struct
    that no function of the package assigns to after building it, so a
    [*Logger] is carried as the struct itself. *)
Record Logger := {
  Logger_Logger : zap.ptr;
}.

(** [type LogConfig struct] *)
Record LogConfig := {
  Level : string;
  OutputPath : string;
  Format : string;
}.

Local Open Scope run_scope.

Section Constructor.
Context `{GoStd}.

(** Lines 42-47: the output paths handed to the engine. *)
Definition outputPaths (config : LogConfig) : list string :=
  if decide (OutputPath config = "stdout") then ["stdout"]
  else [OutputPath config].

(** Lines 50-63 *)
Definition encoderConfig : zapcore.EncoderConfig :=
  {| zapcore.TimeKey := "ts";
     zapcore.LevelKey := "level";
     zapcore.NameKey := "logger";
     zapcore.CallerKey := "caller";
     zapcore.FunctionKey := zapcore.OmitKey;
     zapcore.MessageKey := "msg";
     zapcore.StacktraceKey := "stacktrace";
     zapcore.LineEnding := zapcore.DefaultLineEnding;
     zapcore.EncodeLevel := Some zapcore.CapitalLevelEncoder;
     zapcore.EncodeTime := Some zapcore.ISO8601TimeEncoder;
     zapcore.EncodeDuration := Some zapcore.StringDurationEncoder;
     zapcore.EncodeCaller := Some zapcore.ShortCallerEncoder |}.

(** Lines 65-72 *)
Definition zapConfig (config : LogConfig) (level : zapcore.Level) : zap.Config :=
  {| zap.Level := Some level;
     zap.Development := false;
     zap.DisableCaller := false;
     zap.DisableStacktrace := false;
     zap.Encoding := Format config;
     zap.EncoderConfig := encoderConfig;
     zap.OutputPaths := outputPaths config;
     zap.ErrorOutputPaths := ["stderr"] |}.

(** [func NewWithConfig(config LogConfig)], returning a handle and an
    error; the result is
    [inl] of the handle for [(handle, nil)] and [inr] of the error for
    [(nil, err)]. *)
Definition NewWithConfig (config : LogConfig) : zap.Go (Logger + error) :=
  let level := zap.NewAtomicLevel in
  let '(level, err) := zap.AtomicLevel_UnmarshalText level (Level config) in
  match err with
  | Some err => ret (inr (Errorf_v "invalid log level: " err))
  | None =>
      r <- zap.Build (zapConfig config level) [zap.AddCallerSkip 1] ;;
      match r with
      | inr err => ret (inr err)
      | inl zapLogger => ret (inl {| Logger_Logger := zapLogger |})
      end
  end.

(** [func New()], returning a handle and an error. *)
Definition New : zap.Go (Logger + error) :=
  NewWithConfig {| Level := "info"; OutputPath := "stdout"; Format := "console" |}.

End Constructor.

(** The methods of [*Logger]. *)
Definition Logger_Debug (l : Logger) (msg : string) (fields : list zap.Field)
  : zap.Go unit :=
  zap.Logger_Debug (Logger_Logger l) msg fields.

Definition Logger_Info (l : Logger) (msg : string) (fields : list zap.Field)
  : zap.Go unit :=
  zap.Logger_Info (Logger_Logger l) msg fields.

Definition Logger_Warn (l : Logger) (msg : string) (fields : list zap.Field)
  : zap.Go unit :=
  zap.Logger_Warn (Logger_Logger l) msg fields.

Definition Logger_Error (l : Logger) (msg : string) (fields : list zap.Field)
  : zap.Go unit :=
  zap.Logger_Error (Logger_Logger l) msg fields.

Definition Logger_Fatal (l : Logger) (msg : string) (fields : list zap.Field)
  : zap.Go unit :=
  zap.Logger_Fatal (Logger_Logger l) msg fields.

(** [func (l *Logger) Fatalf(format string, err error)] *)
Definition Logger_Fatalf (l : Logger) (format : string) (err : error_iface)
  : zap.Go unit :=
  match err with
  | Some _ => zap.Logger_Fatal (Logger_Logger l) format [zap.Error err]
  | None => ret tt
  end ;;;
  os.Exit 1.

(** [func (l *Logger) WithFields(fields ...zap.Field) *Logger] *)
Definition Logger_WithFields (l : Logger) (fields : list zap.Field)
  : zap.Go Logger :=
  p <- zap.Logger_With (Logger_Logger l) fields ;;
  ret {| Logger_Logger := p |}.

(** [func NewLogger(zapLogger *zap.Logger) *Logger] *)
Definition NewLogger (zapLogger : zap.ptr) : Logger :=
  {| Logger_Logger := zapLogger |}.

(** The free functions that build fields.  An [int], an [int64] and the
    bits of a [float64] are integers. *)
Definition String (key val : string) : zap.Field := zap.String key val.

Definition Int (key : string) (val : Z) : zap.Field := zap.Int key val.

Definition Int64 (key : string) (val : Z) : zap.Field := zap.Int64 key val.

Definition Float64 (key : string) (val : Z) : zap.Field := zap.Float64 key val.

Definition Bool (key : string) (val : bool) : zap.Field := zap.Bool key val.

Definition Error (err : error_iface) : zap.Field := zap.Error err.

Definition Any (key : string) (val : zapcore.any) : zap.Field := zap.Any key val.

Definition Duration (key : string) (val : Z) : zap.Field := zap.Float64 key val.

End logger.

(** ** Vocabulary of the statements *)

(** The state a call leaves, however it ends. *)
Definition final {S A} (o : Outcome S A) : S :=
  match o with
  | Returned _ s | Exited _ s | Panicked s => s
  end.

(** The severities for which the facade has an emission method, the level
    of each and the method itself. *)
Inductive Severity := SevDebug | SevInfo | SevWarn | SevError | SevFatal.

Definition Severity_Level (sev : Severity) : zapcore.Level :=
  match sev with
  | SevDebug => zapcore.DebugLevel
  | SevInfo => zapcore.InfoLevel
  | SevWarn => zapcore.WarnLevel
  | SevError => zapcore.ErrorLevel
  | SevFatal => zapcore.FatalLevel
  end.

Definition emit (l : logger.Logger) (sev : Severity)
  : string -> list zap.Field -> zap.Go unit :=
  match sev with
  | SevDebug => logger.Logger_Debug l
  | SevInfo => logger.Logger_Info l
  | SevWarn => logger.Logger_Warn l
  | SevError => logger.Logger_Error l
  | SevFatal => logger.Logger_Fatal l
  end.

(** The severity strings that the comment on [LogConfig.Level] lists. *)
Definition severity_strings : list string :=
  ["debug"; "info"; "warn"; "error"; "fatal"].

(** The handle points to this instance. *)
Definition points_to (w : zap.World) (l : logger.Logger) (log : zap.Logger) : Prop :=
  zap.heap w !! logger.Logger_Logger l = Some log.

(** The line that an instance writes for a call: the entry, and the
    instance's context followed by the fields of the call. *)
Definition line_of (log : zap.Logger) (lvl : zapcore.Level) (msg : string)
  (fields : list zap.Field) : zapcore.Line :=
  zapcore.EncodeEntry (zapcore.enc (zap.core log))
    {| zapcore.Entry_Level := lvl; zapcore.Entry_Message := msg |} fields.

(** The instance that [NewWithConfig] ends up with for a configuration and
    its parsed level. *)
Definition built (config : logger.LogConfig) (level : zapcore.Level) : zap.Logger :=
  {| zap.core :=
       {| zapcore.LevelEnabler := level;
          zapcore.enc := {| zapcore.enc_name := logger.Format config;
                            zapcore.enc_config := logger.encoderConfig;
                            zapcore.enc_fields := [] |};
          zapcore.out := [logger.OutputPath config] |};
     zap.development := false;
     zap.addCaller := true;
     zap.errorOutput := ["stderr"];
     zap.addStack := Some zapcore.ErrorLevel;
     zap.callerSkip := 1 |}.

(** The encoding names that [newEncoder] finds in the registry. *)
Definition registered (name : string) : Prop := name = "console" \/ name = "json".

(** The destination opens in this world. *)
Definition opens (w : zap.World) (path : string) : Prop :=
  path = "stdout" \/ path = "stderr" \/ zap.fs_open w path = None.

(** The world once the destination has been opened: a standard stream
    leaves it as it is, a file is there afterwards. *)
Definition opened (path : string) (w : zap.World) : zap.World :=
  if decide (path = "stdout") then w
  else if decide (path = "stderr") then w
  else zap.touch path w.

(** What [NewWithConfig] does with the result of [Build]. *)
Definition wrap (r : zap.ptr + error) : logger.Logger + error :=
  match r with
  | inl zapLogger => inl {| logger.Logger_Logger := zapLogger |}
  | inr err => inr err
  end.

(** A world for running examples: every path opens, nothing is written and
    nothing is allocated yet. *)
Definition fresh_world : zap.World :=
  {| zap.fs_open := fun _ => None; zap.sinks := ∅; zap.heap := [] |}.

(** The same where no file can be opened. *)
Definition readonly_world : zap.World :=
  {| zap.fs_open := fun path => Some (errorString ("open sink: " +:+ path));
     zap.sinks := ∅; zap.heap := [] |}.

(** A configuration, the instance it builds, a world in which that
    instance is the only one, and the handle on it. *)
Definition sample_config : logger.LogConfig :=
  {| logger.Level := "warn"; logger.OutputPath := "app.log";
     logger.Format := "json" |}.

Definition sample_instance : zap.Logger := built sample_config zapcore.WarnLevel.

Definition sample_world : zap.World :=
  {| zap.fs_open := fun _ => None; zap.sinks := ∅; zap.heap := [sample_instance] |}.

Definition sample_handle : logger.Logger := {| logger.Logger_Logger := 0%nat |}.

(** The line of a call through an instance without context. *)
Definition plain_line (lvl : zapcore.Level) (msg : string)
  (pairs : zapcore.ObjectEncoder) : zapcore.Line :=
  {| zapcore.line_entry :=
       {| zapcore.Entry_Level := lvl; zapcore.Entry_Message := msg |};
     zapcore.line_fields := pairs |}.

(** The instance that [With] allocates from an instance and a non-empty
    list of fields. *)
Definition child (log : zap.Logger) (fields : list zap.Field) : zap.Logger :=
  {| zap.core := zapcore.ioCore_With (zap.core log) fields;
     zap.development := zap.development log;
     zap.addCaller := zap.addCaller log;
     zap.errorOutput := zap.errorOutput log;
     zap.addStack := zap.addStack log;
     zap.callerSkip := zap.callerSkip log |}.

(** The error of [newEncoder] for an encoding name it does not know. *)
Definition encoding_error `{GoStd} (name : string) : error :=
  if decide (name = "") then errorString "no encoder name specified"
  else Errorf_q "no encoder registered for name " name.

(** The line of a call when its level is enabled, and nothing otherwise. *)
Definition lines_if (enabled : bool) (ln : zapcore.Line) : list zapcore.Line :=
  if enabled then [ln] else [].

(** ** The engine on its own *)

Lemma written_write_to path ln w :
  zap.written (zap.write_to path ln w) path = zap.written w path ++ [ln].
Proof.
  unfold zap.written at 1, zap.write_to. simpl. by rewrite lookup_insert_eq.
Qed.

Lemma heap_write_all paths ln w :
  zap.heap (zap.write_all paths ln w) = zap.heap w.
Proof.
  unfold zap.write_all. revert w.
  induction paths as [|p paths IH]; intros w; simpl; [done|].
  by rewrite IH.
Qed.

(** Every level reaches fatal. *)
Lemma Enabled_Fatal l : zapcore.Enabled l zapcore.FatalLevel = true.
Proof. by destruct l. Qed.

(** A call on a live instance is the write of its checked entry. *)
Lemma log_at_deref lvl p msg fields w log :
  zap.heap w !! p = Some log ->
  zap.log_at lvl p msg fields w
  = zap.CheckedEntry_Write (zap.check log lvl msg) fields w.
Proof. intros Hp. unfold zap.log_at, bind, zap.deref. by rewrite Hp. Qed.

(** Below [DPanicLevel]: one line when the level is enabled, nothing
    otherwise; the call returns. *)
Lemma log_at_below_DPanic lvl p msg fields w log :
  zap.heap w !! p = Some log ->
  zapcore.Level_int8 lvl < zapcore.Level_int8 zapcore.DPanicLevel ->
  zap.log_at lvl p msg fields w
  = Returned tt
      (if zapcore.Enabled (zapcore.LevelEnabler (zap.core log)) lvl
       then zap.write_all (zapcore.out (zap.core log)) (line_of log lvl msg fields) w
       else w).
Proof.
  intros Hp Hlvl. rewrite (log_at_deref _ _ _ _ _ _ Hp).
  unfold zap.check, line_of.
  destruct (zapcore.Enabled _ lvl) eqn:He;
    destruct lvl; simpl in Hlvl; try lia; reflexivity.
Qed.

(** At [FatalLevel]: the line is written, then the process exits with
    code 1. *)
Lemma log_at_Fatal p msg fields w log :
  zap.heap w !! p = Some log ->
  zap.log_at zapcore.FatalLevel p msg fields w
  = Exited 1 (zap.write_all (zapcore.out (zap.core log))
                (line_of log zapcore.FatalLevel msg fields) w).
Proof.
  intros Hp. rewrite (log_at_deref _ _ _ _ _ _ Hp).
  unfold zap.check, line_of. rewrite Enabled_Fatal. reflexivity.
Qed.

(** All five emission methods at once. *)
Lemma emit_outcome l sev msg fields w log :
  points_to w l log ->
  let lvl := Severity_Level sev in
  let w' := if zapcore.Enabled (zapcore.LevelEnabler (zap.core log)) lvl
            then zap.write_all (zapcore.out (zap.core log))
                   (line_of log lvl msg fields) w
            else w in
  emit l sev msg fields w
  = match sev with
    | SevFatal => Exited 1 w'
    | _ => Returned tt w'
    end.
Proof.
  intros Hl. destruct sev; simpl;
    try (by apply log_at_below_DPanic; [exact Hl | simpl; lia]).
  rewrite Enabled_Fatal. by apply log_at_Fatal.
Qed.

(** An emission changes no instance, so whatever was live stays live and
    keeps its threshold, context and destinations call after call. *)
Lemma emit_keeps_instances l sev msg fields w log :
  points_to w l log ->
  zap.heap (final (emit l sev msg fields w)) = zap.heap w.
Proof.
  intros Hl. rewrite (emit_outcome _ _ _ _ _ _ Hl). simpl.
  destruct (zapcore.Enabled _ _), sev; simpl;
    try reflexivity; apply heap_write_all.
Qed.

(** Opening a destination leaves the instances alone. *)
Lemma heap_opened path w : zap.heap (opened path w) = zap.heap w.
Proof.
  unfold opened, zap.touch. repeat case_decide; try done.
  by destruct (zap.sinks w !! path).
Qed.

Lemma fs_open_opened path w : zap.fs_open (opened path w) = zap.fs_open w.
Proof.
  unfold opened, zap.touch. repeat case_decide; try done.
  by destruct (zap.sinks w !! path).
Qed.

(** Nor does it change what any destination holds. *)
Lemma written_opened path w path' :
  zap.written (opened path w) path' = zap.written w path'.
Proof.
  unfold opened, zap.touch. repeat case_decide; try done.
  destruct (zap.sinks w !! path) eqn:Hp; [done|].
  unfold zap.written. simpl.
  destruct (decide (path = path')) as [->|Hne].
  - by rewrite lookup_insert_eq, Hp.
  - by rewrite lookup_insert_ne.
Qed.

Lemma newSink_opens path w :
  opens w path -> zap.newSink path w = Returned (inl path) (opened path w).
Proof.
  unfold opens, zap.newSink, opened. intros Ho.
  repeat case_decide; try done.
  destruct Ho as [?|[?|Ho]]; try done. by rewrite Ho.
Qed.

Lemma newSink_fails path w e :
  path <> "stdout" -> path <> "stderr" -> zap.fs_open w path = Some e ->
  zap.newSink path w = Returned (inr e) w.
Proof.
  unfold zap.newSink. intros H1 H2 He.
  repeat case_decide; try done. by rewrite He.
Qed.

Lemma Open_one_opens path w :
  opens w path -> zap.Open [path] w = Returned (inl [path]) (opened path w).
Proof.
  intros Ho. unfold zap.Open, bind. simpl. unfold bind.
  by rewrite (newSink_opens _ _ Ho).
Qed.

Lemma Open_one_fails path w e :
  path <> "stdout" -> path <> "stderr" -> zap.fs_open w path = Some e ->
  zap.Open [path] w = Returned (inr e) w.
Proof.
  intros H1 H2 He. unfold zap.Open, bind. simpl. unfold bind.
  by rewrite (newSink_fails _ _ _ H1 H2 He).
Qed.

(** The instance just allocated is the one the new pointer reads. *)
Lemma lookup_alloc (h : list zap.Logger) log : (h ++ [log]) !! length h = Some log.
Proof. by apply list_lookup_middle. Qed.

Lemma lookup_alloc_old (h : list zap.Logger) log p old :
  h !! p = Some old -> (h ++ [log]) !! p = Some old.
Proof. intros Hp. by apply lookup_app_l_Some. Qed.

Lemma WithOptions_deref p opts w log :
  zap.heap w !! p = Some log ->
  zap.WithOptions p opts w
  = Returned (length (zap.heap w))
      (zap.set_heap w
         (zap.heap w ++ [fold_left (fun l (opt : zap.Option) => opt l) opts log])).
Proof. intros Hp. unfold zap.WithOptions, bind, zap.deref. by rewrite Hp. Qed.

Section EngineConstruction.
Context `{GoStd}.

Lemma outputPaths_verbatim config :
  logger.outputPaths config = [logger.OutputPath config].
Proof.
  unfold logger.outputPaths. case_decide as Hs; [|done]. by rewrite Hs.
Qed.

Lemma newEncoder_registered name :
  registered name ->
  zap.newEncoder name logger.encoderConfig
  = inl {| zapcore.enc_name := name;
           zapcore.enc_config := logger.encoderConfig;
           zapcore.enc_fields := [] |}.
Proof. intros [-> | ->]; reflexivity. Qed.

Lemma newEncoder_empty cfg :
  zapcore.EncodeTime cfg <> None ->
  zap.newEncoder "" cfg = inr (errorString "no encoder name specified").
Proof.
  intros Ht. unfold zap.newEncoder.
  rewrite (bool_decide_eq_false_2 _ Ht), andb_false_r. reflexivity.
Qed.

Lemma WithOptions_alloc opts w log :
  zap.WithOptions (length (zap.heap w)) opts (zap.set_heap w (zap.heap w ++ [log]))
  = Returned (S (length (zap.heap w)))
      (zap.set_heap w
         (zap.heap w ++ [log; fold_left (fun l (opt : zap.Option) => opt l) opts log])).
Proof.
  rewrite (WithOptions_deref _ _ _ log) by apply lookup_alloc.
  simpl. rewrite length_app, <- app_assoc. simpl.
  by replace (length (zap.heap w) + 1)%nat with (S (length (zap.heap w))) by lia.
Qed.

Lemma lookup_alloc_second (h : list zap.Logger) a b :
  (h ++ [a; b]) !! S (length h) = Some b.
Proof.
  change (h ++ [a; b]) with (h ++ [a] ++ [b]). rewrite app_assoc.
  replace (S (length h)) with (length (h ++ [a])) by (rewrite length_app; simpl; lia).
  apply lookup_alloc.
Qed.

Lemma lookup_alloc_third (h : list zap.Logger) a b c :
  (h ++ [a; b; c]) !! (length h + 2)%nat = Some c.
Proof.
  change (h ++ [a; b; c]) with (h ++ [a; b] ++ [c]). rewrite app_assoc.
  replace (length h + 2)%nat with (length (h ++ [a; b]))
    by (rewrite length_app; simpl; lia).
  apply lookup_alloc.
Qed.

Lemma WithOptions_alloc_second opts w a b :
  zap.WithOptions (S (length (zap.heap w))) opts
    (zap.set_heap w (zap.heap w ++ [a; b]))
  = Returned (length (zap.heap w) + 2)%nat
      (zap.set_heap w
         (zap.heap w
          ++ [a; b; fold_left (fun l (opt : zap.Option) => opt l) opts b])).
Proof.
  rewrite (WithOptions_deref _ _ _ b) by apply lookup_alloc_second.
  simpl. rewrite length_app, <- app_assoc. reflexivity.
Qed.

(** [Build] on the translated configuration, when the encoding is
    registered and the destination opens: three instances are allocated
    (by [New], by its [WithOptions], and by the [WithOptions] of [Build]),
    and the last is the result. *)
Lemma Build_succeeds config level w :
  registered (logger.Format config) ->
  opens w (logger.OutputPath config) ->
  exists w',
    zap.Build (logger.zapConfig config level) [zap.AddCallerSkip 1] w
    = Returned (inl (length (zap.heap w) + 2)%nat) w'
    /\ zap.heap w' !! (length (zap.heap w) + 2)%nat = Some (built config level)
    /\ (forall p log, zap.heap w !! p = Some log -> zap.heap w' !! p = Some log)
    /\ (forall path, zap.written w' path = zap.written w path)
    /\ zap.fs_open w' = zap.fs_open w.
Proof.
  intros Hreg Hopen.
  unfold zap.Build. simpl. rewrite (newEncoder_registered _ Hreg).
  unfold zap.openSinks. simpl. rewrite outputPaths_verbatim.
  unfold bind at 1. unfold bind at 1.
  rewrite (Open_one_opens _ _ Hopen).
  unfold bind at 1.
  rewrite (Open_one_opens "stderr" _ (or_intror (or_introl eq_refl))).
  change (opened "stderr" ?x) with x. unfold ret at 1.
  unfold bind at 1, zap.New, bind at 1, zap.alloc at 1.
  rewrite WithOptions_alloc. unfold bind at 1.
  rewrite WithOptions_alloc_second.
  unfold ret. rewrite heap_opened.
  eexists. split; [reflexivity|].
  simpl. repeat split.
  - rewrite lookup_alloc_third. reflexivity.
  - intros p log Hp. by apply lookup_app_l_Some.
  - intros path. apply written_opened.
  - apply fs_open_opened.
Qed.

(** [Build] stops at an encoding it cannot find, before anything is
    opened. *)
Lemma Build_encoder_fails config level w e :
  zap.newEncoder (logger.Format config) logger.encoderConfig = inr e ->
  zap.Build (logger.zapConfig config level) [zap.AddCallerSkip 1] w
  = Returned (inr e) w.
Proof. intros He. unfold zap.Build. simpl. by rewrite He. Qed.

(** [Build] hands back the error of a destination that does not open. *)
Lemma Build_open_fails config level w e :
  registered (logger.Format config) ->
  logger.OutputPath config <> "stdout" ->
  logger.OutputPath config <> "stderr" ->
  zap.fs_open w (logger.OutputPath config) = Some e ->
  zap.Build (logger.zapConfig config level) [zap.AddCallerSkip 1] w
  = Returned (inr e) w.
Proof.
  intros Hreg H1 H2 He.
  unfold zap.Build. simpl. rewrite (newEncoder_registered _ Hreg).
  unfold zap.openSinks. simpl. rewrite outputPaths_verbatim.
  unfold bind at 1. unfold bind at 1.
  by rewrite (Open_one_fails _ _ _ H1 H2 He).
Qed.

(** Once the level has parsed, [NewWithConfig] is [Build] on the translated
    configuration, and nothing else. *)
Lemma NewWithConfig_parsed config level w :
  zapcore.UnmarshalText (logger.Level config) = inl level ->
  logger.NewWithConfig config w
  = bind (zap.Build (logger.zapConfig config level) [zap.AddCallerSkip 1])
      (fun r => ret (wrap r)) w.
Proof.
  intros Hlvl. unfold logger.NewWithConfig, zap.AtomicLevel_UnmarshalText.
  rewrite Hlvl. unfold bind.
  destruct (zap.Build _ _ w) as [[?|?] ?| |]; reflexivity.
Qed.

Lemma NewWithConfig_rejected config detail w :
  zapcore.UnmarshalText (logger.Level config) = inr detail ->
  logger.NewWithConfig config w
  = Returned (inr (Errorf_v "invalid log level: " detail)) w.
Proof.
  intros Hlvl. unfold logger.NewWithConfig, zap.AtomicLevel_UnmarshalText.
  by rewrite Hlvl.
Qed.

(** The five listed strings parse as they are, whatever [ToLower] does. *)
Lemma UnmarshalText_listed text :
  In text severity_strings ->
  exists level,
    zapcore.UnmarshalText text = inl level
    /\ zapcore.unmarshalText text = Some level
    /\ In level [zapcore.DebugLevel; zapcore.InfoLevel; zapcore.WarnLevel;
                 zapcore.ErrorLevel; zapcore.FatalLevel].
Proof.
  unfold severity_strings. simpl.
  intros [<-|[<-|[<-|[<-|[<-|[]]]]]]; eexists;
    (split; [reflexivity|split; [reflexivity|simpl; tauto]]).
Qed.

End EngineConstruction.

(** ** The facade *)

(** C7. Each of Debug, Info, Warn and Error of the facade is the engine's
    method of the same name on the wrapped instance, with the message and
    the fields as they were given: the two calls are the same computation,
    so they end the same way in the same state from every state.  On a live
    instance the call returns with the line already in every destination
    when the level is enabled (the fields encoded in the order given, after
    the instance's context), and with the state untouched when it is
    disabled. *)
Theorem facade_forwards_to_engine (l : logger.Logger) (msg : string)
  (fields : list zap.Field) :
  (logger.Logger_Debug l msg fields
     = zap.Logger_Debug (logger.Logger_Logger l) msg fields
   /\ logger.Logger_Info l msg fields
     = zap.Logger_Info (logger.Logger_Logger l) msg fields
   /\ logger.Logger_Warn l msg fields
     = zap.Logger_Warn (logger.Logger_Logger l) msg fields
   /\ logger.Logger_Error l msg fields
     = zap.Logger_Error (logger.Logger_Logger l) msg fields)
  /\ forall w log sev,
       points_to w l log -> sev <> SevFatal ->
       emit l sev msg fields w
       = Returned tt
           (if zapcore.Enabled (zapcore.LevelEnabler (zap.core log))
                 (Severity_Level sev)
            then zap.write_all (zapcore.out (zap.core log))
                   {| zapcore.line_entry :=
                        {| zapcore.Entry_Level := Severity_Level sev;
                           zapcore.Entry_Message := msg |};
                      zapcore.line_fields :=
                        zapcore.addFields
                          (zapcore.enc_fields (zapcore.enc (zap.core log)))
                          fields |} w
            else w).
Proof.
  split; [repeat split|].
  intros w log sev Hl Hsev.
  rewrite (emit_outcome _ _ _ _ _ _ Hl). by destruct sev.
Qed.

(** The engine's fatal call never returns: on a live instance the process
    exits, on a dangling pointer it panics. *)
Lemma Logger_Fatal_ends p msg fields w :
  (exists w', zap.Logger_Fatal p msg fields w = Exited 1 w')
  \/ zap.Logger_Fatal p msg fields w = Panicked w.
Proof.
  unfold zap.Logger_Fatal.
  destruct (zap.heap w !! p) as [log|] eqn:Hp.
  - left. rewrite (log_at_Fatal _ _ _ _ _ Hp). by eexists.
  - right. unfold zap.log_at, bind, zap.deref. by rewrite Hp.
Qed.


(** C9. Duration(key, val) is the very descriptor Float64(key, val): its
    tag is the float tag, it differs from every descriptor the engine's own
    duration constructor builds, and it is encoded through the float
    encoder, not the duration one. *)
Theorem Duration_is_Float64 (key : string) (val : Z) :
  logger.Duration key val = logger.Float64 key val
  /\ zapcore.Field_Type (logger.Duration key val) = zapcore.Float64Type
  /\ (forall d, logger.Duration key val <> zap.Duration key d)
  /\ (forall enc,
        zapcore.AddTo (logger.Duration key val) enc
        = enc ++ [(key, zapcore.Float64Value val)]).
Proof. repeat split. intros d Hd. discriminate Hd. Qed.



(** ** The constructor *)

(** What a write of one line changes in the state is decided by the sinks
    alone. *)
Lemma sinks_write_all paths ln w1 w2 :
  zap.sinks w1 = zap.sinks w2 ->
  zap.sinks (zap.write_all paths ln w1) = zap.sinks (zap.write_all paths ln w2).
Proof.
  unfold zap.write_all. revert w1 w2.
  induction paths as [|p paths IH]; intros w1 w2 Hs; simpl; [done|].
  apply IH. unfold zap.write_to, zap.written. simpl. by rewrite Hs.
Qed.

(** An instance built by [NewWithConfig] honors its threshold in every
    state in which it is live. *)
Lemma built_honors_threshold config level l w sev msg fields :
  points_to w l (built config level) ->
  let after := final (emit l sev msg fields w) in
  if zapcore.Enabled level (Severity_Level sev)
  then zap.written after (logger.OutputPath config)
       = zap.written w (logger.OutputPath config)
         ++ [{| zapcore.line_entry :=
                  {| zapcore.Entry_Level := Severity_Level sev;
                     zapcore.Entry_Message := msg |};
                zapcore.line_fields := zapcore.addFields [] fields |}]
  else emit l sev msg fields w = Returned tt w.
Proof.
  intros Hl. simpl. rewrite (emit_outcome _ _ _ _ _ _ Hl). simpl.
  destruct (zapcore.Enabled level (Severity_Level sev)) eqn:He.
  - assert (Hw : forall o : Outcome zap.World unit,
               (o = Exited 1 (zap.write_to (logger.OutputPath config)
                                (line_of (built config level) (Severity_Level sev)
                                   msg fields) w)
                \/ o = Returned tt (zap.write_to (logger.OutputPath config)
                                (line_of (built config level) (Severity_Level sev)
                                   msg fields) w)) ->
               zap.written (final o) (logger.OutputPath config)
               = zap.written w (logger.OutputPath config)
                 ++ [line_of (built config level) (Severity_Level sev) msg fields]).
    { intros o [-> | ->]; simpl; apply written_write_to. }
    apply Hw. destruct sev; auto.
  - destruct sev; try reflexivity. by rewrite Enabled_Fatal in He.
Qed.

Section ConstructorFacts.
Context `{GoStd}.

(** How [NewWithConfig] ends when the level parses, the encoding is
    registered and the destination opens. *)
Lemma NewWithConfig_succeeds config level w :
  zapcore.UnmarshalText (logger.Level config) = inl level ->
  registered (logger.Format config) ->
  opens w (logger.OutputPath config) ->
  exists l w',
    logger.NewWithConfig config w = Returned (inl l) w'
    /\ points_to w' l (built config level)
    /\ (forall p log, zap.heap w !! p = Some log -> zap.heap w' !! p = Some log)
    /\ (forall path, zap.written w' path = zap.written w path).
Proof.
  intros Hlvl Hreg Hopen.
  destruct (Build_succeeds config level w Hreg Hopen)
    as (w' & Hb & Hp & Hold & Hwr & _).
  exists {| logger.Logger_Logger := (length (zap.heap w) + 2)%nat |}, w'.
  rewrite (NewWithConfig_parsed _ _ _ Hlvl). unfold bind. rewrite Hb.
  by repeat split.
Qed.

(** C1 (amended). For every configuration whose severity string is one of
    debug, info, warn, error, fatal, the level parses to the level of that
    name, and NewWithConfig is then the engine's Build on the translated
    configuration: it returns Build's error when Build fails, and a handle on
    Build's instance otherwise.  When the format is a registered encoding
    and the destination opens, Build does not fail: NewWithConfig returns a
    handle, on an instance whose threshold is the parsed level, and in
    every state in which that instance is live, a call of an emission method
    below the threshold returns and leaves the state as it was, while a call
    at or above it adds exactly its line to the destination. *)
Theorem NewWithConfig_honors_threshold (config : logger.LogConfig) (w : zap.World) :
  In (logger.Level config) severity_strings ->
  exists level,
    zapcore.unmarshalText (logger.Level config) = Some level
    /\ logger.NewWithConfig config w
       = bind (zap.Build (logger.zapConfig config level) [zap.AddCallerSkip 1])
           (fun r => ret (wrap r)) w
    /\ (registered (logger.Format config) ->
        opens w (logger.OutputPath config) ->
        exists l w',
          logger.NewWithConfig config w = Returned (inl l) w'
          /\ points_to w' l (built config level)
          /\ forall w'' sev msg fields,
               points_to w'' l (built config level) ->
               if zapcore.Enabled level (Severity_Level sev)
               then zap.written (final (emit l sev msg fields w''))
                      (logger.OutputPath config)
                    = zap.written w'' (logger.OutputPath config)
                      ++ [{| zapcore.line_entry :=
                               {| zapcore.Entry_Level := Severity_Level sev;
                                  zapcore.Entry_Message := msg |};
                             zapcore.line_fields := zapcore.addFields [] fields |}]
               else emit l sev msg fields w'' = Returned tt w'').
Proof.
  intros Hsev.
  destruct (UnmarshalText_listed _ Hsev) as (level & Hparse & Hun & _).
  exists level. split; [exact Hun|]. split.
  { apply NewWithConfig_parsed, Hparse. }
  intros Hreg Hopen.
  destruct (NewWithConfig_succeeds config level w Hparse Hreg Hopen)
    as (l & w' & Hnew & Hl & _).
  exists l, w'. repeat split; try done.
  intros w'' sev msg fields Hl''.
  apply (built_honors_threshold config level l w'' sev msg fields Hl'').
Qed.

(** C1, as stated, fails: a listed severity string does not make
    NewWithConfig succeed.  With the empty format the engine refuses to
    build and its error is what comes back. *)
Lemma NewWithConfig_listed_level_can_fail :
  In "info" severity_strings
  /\ @logger.NewWithConfig ascii_text
       {| logger.Level := "info"; logger.OutputPath := "stdout";
          logger.Format := "" |} fresh_world
     = Returned (inr (errorString "no encoder name specified")) fresh_world.
Proof. split; [simpl; tauto | reflexivity]. Qed.

(** C2 (amended). For every severity string that the engine's level parser
    rejects, NewWithConfig returns no handle but the error whose text is
    "invalid log level: " followed by the text of the parser's error, which
    is "unrecognized level: " followed by the quoted string; the state is
    left exactly as it was.  A rejected string is never one of the listed
    five. *)
Theorem NewWithConfig_invalid_level (config : logger.LogConfig) (w : zap.World)
  (detail : error) :
  zapcore.UnmarshalText (logger.Level config) = inr detail ->
  logger.NewWithConfig config w
  = Returned (inr (errorString ("invalid log level: " +:+ Error_text detail))) w
  /\ Error_text detail
     = "unrecognized level: " +:+ strconv_Quote (logger.Level config)
  /\ ~ In (logger.Level config) severity_strings.
Proof.
  intros Hrej. split; [|split].
  - by rewrite (NewWithConfig_rejected _ _ _ Hrej).
  - unfold zapcore.UnmarshalText in Hrej.
    destruct (zapcore.unmarshalText (logger.Level config)); [done|].
    destruct (zapcore.unmarshalText (bytes_ToLower (logger.Level config))); [done|].
    by inversion Hrej.
  - intros Hin. destruct (UnmarshalText_listed _ Hin) as (level & Hparse & _).
    by rewrite Hparse in Hrej.
Qed.

(** C4. New is NewWithConfig on the configuration info / stdout / console:
    the same computation, hence the same result from every state.  That
    result is a handle on an instance with the info threshold that writes to
    the standard output. *)
Theorem New_is_NewWithConfig_default :
  logger.New
  = logger.NewWithConfig
      {| logger.Level := "info"; logger.OutputPath := "stdout";
         logger.Format := "console" |}
  /\ forall w, exists l w',
       logger.New w = Returned (inl l) w'
       /\ points_to w' l
            (built {| logger.Level := "info"; logger.OutputPath := "stdout";
                      logger.Format := "console" |} zapcore.InfoLevel).
Proof.
  split; [reflexivity|]. intros w.
  destruct (NewWithConfig_succeeds
              {| logger.Level := "info"; logger.OutputPath := "stdout";
                 logger.Format := "console" |} zapcore.InfoLevel w)
    as (l & w' & Hnew & Hl & _).
  - reflexivity.
  - by left.
  - by left.
  - by exists l, w'.
Qed.

End ConstructorFacts.

(** C2, as stated, fails: "panic" is not one of the five listed strings, yet
    the parser takes it and NewWithConfig returns a handle, on an instance
    with the panic threshold. *)
Lemma NewWithConfig_unlisted_level_accepted :
  ~ In "panic" severity_strings
  /\ exists l w',
       @logger.NewWithConfig ascii_text
         {| logger.Level := "panic"; logger.OutputPath := "stdout";
            logger.Format := "console" |} fresh_world
       = Returned (inl l) w'
       /\ points_to w' l
            (built {| logger.Level := "panic"; logger.OutputPath := "stdout";
                      logger.Format := "console" |} zapcore.PanicLevel).
Proof.
  split.
  - unfold severity_strings. simpl. intros Hin.
    repeat (destruct Hin as [Hin|Hin]; [discriminate Hin|]). exact Hin.
  - eexists _, _. split; reflexivity.
Qed.

(** ** Output destination *)

Section Destination.
Context `{GoStd}.

(** C5. The translator hands the engine one output path: the sentinel
    "stdout", which the engine opens as the console stream in every state,
    or otherwise the configured string as it stands.  The translated
    configuration is a function of the configuration and the level alone,
    so no state, and no file system, is consulted to make it.  Whether the
    path opens is found out by the engine: if it does not, the engine's
    error is what NewWithConfig returns, and if it does, the handle's
    instance writes to that path. *)
Theorem output_destination_translation (config : logger.LogConfig)
  (level : zapcore.Level) :
  (logger.OutputPath config = "stdout" ->
   zap.OutputPaths (logger.zapConfig config level) = ["stdout"]
   /\ forall w, zap.newSink "stdout" w = Returned (inl "stdout") w)
  /\ (logger.OutputPath config <> "stdout" ->
      zap.OutputPaths (logger.zapConfig config level) = [logger.OutputPath config])
  /\ (forall w e,
        zapcore.UnmarshalText (logger.Level config) = inl level ->
        registered (logger.Format config) ->
        logger.OutputPath config <> "stdout" ->
        logger.OutputPath config <> "stderr" ->
        zap.fs_open w (logger.OutputPath config) = Some e ->
        logger.NewWithConfig config w = Returned (inr e) w)
  /\ (forall w,
        zapcore.UnmarshalText (logger.Level config) = inl level ->
        registered (logger.Format config) ->
        opens w (logger.OutputPath config) ->
        exists l w' log,
          logger.NewWithConfig config w = Returned (inl l) w'
          /\ points_to w' l log
          /\ zapcore.out (zap.core log) = [logger.OutputPath config]).
Proof.
  repeat split.
  - simpl. unfold logger.outputPaths. by case_decide.
  - simpl. unfold logger.outputPaths. by case_decide.
  - intros w e Hlvl Hreg H1 H2 He.
    rewrite (NewWithConfig_parsed _ _ _ Hlvl). unfold bind.
    by rewrite (Build_open_fails _ _ _ _ Hreg H1 H2 He).
  - intros w Hlvl Hreg Hopen.
    destruct (NewWithConfig_succeeds config level w Hlvl Hreg Hopen)
      as (l & w' & Hnew & Hl & _).
    by exists l, w', (built config level).
Qed.


End Destination.

(** ** Child handles *)

(** [With] on a live instance and at least one field: one new instance,
    the context extended, everything else copied. *)
Lemma Logger_With_deref p f fields w log :
  zap.heap w !! p = Some log ->
  zap.Logger_With p (f :: fields) w
  = Returned (length (zap.heap w))
      (zap.set_heap w
         (zap.heap w
          ++ [{| zap.core := zapcore.ioCore_With (zap.core log) (f :: fields);
                 zap.development := zap.development log;
                 zap.addCaller := zap.addCaller log;
                 zap.errorOutput := zap.errorOutput log;
                 zap.addStack := zap.addStack log;
                 zap.callerSkip := zap.callerSkip log |}])).
Proof. intros Hp. unfold zap.Logger_With, bind, zap.deref. by rewrite Hp. Qed.

(** C6. On a live handle and for every list of fields, WithFields returns a
    handle on an instance whose context is the original's context with the
    supplied fields added after it, and whose threshold and destinations are
    the original's.  Every instance that existed before, the original's
    among them, is afterwards what it was, and nothing is written.  A call
    of an emission method through the original after the call writes what
    it would have written before it: a line with the original's context,
    without the added fields. *)
Theorem WithFields_leaves_original (l : logger.Logger) (fields : list zap.Field)
  (w : zap.World) (log : zap.Logger) :
  points_to w l log ->
  exists l' w' log',
    logger.Logger_WithFields l fields w = Returned l' w'
    /\ points_to w' l' log'
    /\ zapcore.enc_fields (zapcore.enc (zap.core log'))
       = zapcore.addFields (zapcore.enc_fields (zapcore.enc (zap.core log))) fields
    /\ zapcore.LevelEnabler (zap.core log') = zapcore.LevelEnabler (zap.core log)
    /\ zapcore.out (zap.core log') = zapcore.out (zap.core log)
    /\ points_to w' l log
    /\ (forall p old, zap.heap w !! p = Some old -> zap.heap w' !! p = Some old)
    /\ zap.sinks w' = zap.sinks w
    /\ forall sev msg fs,
         zap.sinks (final (emit l sev msg fs w'))
         = zap.sinks (final (emit l sev msg fs w))
         /\ (zapcore.Enabled (zapcore.LevelEnabler (zap.core log))
               (Severity_Level sev) = true ->
             final (emit l sev msg fs w')
             = zap.write_all (zapcore.out (zap.core log))
                 {| zapcore.line_entry :=
                      {| zapcore.Entry_Level := Severity_Level sev;
                         zapcore.Entry_Message := msg |};
                    zapcore.line_fields :=
                      zapcore.addFields
                        (zapcore.enc_fields (zapcore.enc (zap.core log))) fs |}
                 w').
Proof.
  intros Hl.
  assert (Hemit : forall w', points_to w' l log -> zap.sinks w' = zap.sinks w ->
            forall sev msg fs,
              zap.sinks (final (emit l sev msg fs w'))
              = zap.sinks (final (emit l sev msg fs w))
              /\ (zapcore.Enabled (zapcore.LevelEnabler (zap.core log))
                    (Severity_Level sev) = true ->
                  final (emit l sev msg fs w')
                  = zap.write_all (zapcore.out (zap.core log))
                      (line_of log (Severity_Level sev) msg fs) w')).
  { intros w' Hl' Hs sev msg fs.
    rewrite (emit_outcome _ _ _ _ _ _ Hl), (emit_outcome _ _ _ _ _ _ Hl').
    simpl.
    destruct (zapcore.Enabled _ (Severity_Level sev)); split; intros;
      destruct sev; simpl; try done; by apply sinks_write_all. }
  destruct fields as [|f fields].
  - exists l, w, log. unfold logger.Logger_WithFields, bind. simpl.
    destruct l as [p]. repeat split; try done; by apply Hemit.
  - unfold logger.Logger_WithFields, bind.
    rewrite (Logger_With_deref _ _ _ _ _ Hl).
    eexists _, _, _. split; [reflexivity|].
    assert (Hl' : forall new,
              points_to (zap.set_heap w (zap.heap w ++ [new])) l log)
      by (intros new; apply lookup_alloc_old, Hl).
    split; [apply lookup_alloc|].
    repeat split; try done.
    + intros p old Hp. by apply lookup_alloc_old.
    + by apply (Hemit _ (Hl' _)).
    + by apply (Hemit _ (Hl' _)).
Qed.

(** ** Worked instances *)

(** An error call through the sample handle: its level passes the warn
    threshold, so the line is in app.log when the call returns. *)
Lemma facade_forwards_to_engine_witness :
  points_to sample_world sample_handle sample_instance
  /\ SevError <> SevFatal
  /\ emit sample_handle SevError "disk full" [logger.Int "free" 0] sample_world
     = Returned tt
         (zap.write_to "app.log"
            (plain_line zapcore.ErrorLevel "disk full"
               [("free", zapcore.Int64Value 0)]) sample_world).
Proof.
  split; [reflexivity|]. split; [discriminate|].
  apply (proj2 (facade_forwards_to_engine sample_handle "disk full"
                  [logger.Int "free" 0]) sample_world sample_instance SevError);
    [reflexivity|discriminate].
Defined.


(** The sample configuration in the fresh world: the handle drops an info
    call and writes an error call. *)
Lemma NewWithConfig_honors_threshold_witness :
  In (logger.Level sample_config) severity_strings
  /\ registered (logger.Format sample_config)
  /\ opens fresh_world (logger.OutputPath sample_config)
  /\ exists l w',
       @logger.NewWithConfig ascii_text sample_config fresh_world
       = Returned (inl l) w'
       /\ emit l SevInfo "started" [] w' = Returned tt w'
       /\ zap.written (final (emit l SevError "disk full" [] w')) "app.log"
          = zap.written w' "app.log"
            ++ [plain_line zapcore.ErrorLevel "disk full" []].
Proof.
  assert (Hsev : In (logger.Level sample_config) severity_strings)
    by (simpl; tauto).
  assert (Hreg : registered (logger.Format sample_config))
    by (right; reflexivity).
  assert (Hopen : opens fresh_world (logger.OutputPath sample_config))
    by (right; right; reflexivity).
  repeat (split; [assumption|]).
  destruct (@NewWithConfig_honors_threshold ascii_text sample_config fresh_world
              Hsev)
    as (level & Hlevel & _ & Hbuilt).
  injection Hlevel as <-.
  destruct (Hbuilt Hreg Hopen) as (l & w' & Hnew & Hl & Hhonors).
  exists l, w'. split; [exact Hnew|]. split.
  - exact (Hhonors w' SevInfo "started" [] Hl).
  - exact (Hhonors w' SevError "disk full" [] Hl).
Defined.

(** A string that the parser rejects. *)
Lemma NewWithConfig_invalid_level_witness :
  @zapcore.UnmarshalText ascii_text "verbose"
  = inr (errorString ("unrecognized level: " +:+ ascii_Quote "verbose"))
  /\ @logger.NewWithConfig ascii_text
       {| logger.Level := "verbose"; logger.OutputPath := "stdout";
          logger.Format := "console" |} fresh_world
     = Returned
         (inr (errorString ("invalid log level: unrecognized level: "
                            +:+ ascii_Quote "verbose")))
         fresh_world.
Proof.
  split; [reflexivity|].
  apply (@NewWithConfig_invalid_level ascii_text
           {| logger.Level := "verbose"; logger.OutputPath := "stdout";
              logger.Format := "console" |} fresh_world
           (errorString ("unrecognized level: " +:+ ascii_Quote "verbose"))).
  reflexivity.
Defined.

(** Where no file opens, the sample configuration gets the engine's error
    back. *)
Lemma output_destination_translation_witness :
  @zapcore.UnmarshalText ascii_text (logger.Level sample_config)
  = inl zapcore.WarnLevel
  /\ registered (logger.Format sample_config)
  /\ logger.OutputPath sample_config <> "stdout"
  /\ logger.OutputPath sample_config <> "stderr"
  /\ zap.fs_open readonly_world (logger.OutputPath sample_config)
     = Some (errorString "open sink: app.log")
  /\ @logger.NewWithConfig ascii_text sample_config readonly_world
     = Returned (inr (errorString "open sink: app.log")) readonly_world.
Proof.
  split; [reflexivity|]. split; [right; reflexivity|].
  split; [discriminate|]. split; [discriminate|]. split; [reflexivity|].
  apply (proj1 (proj2 (proj2 (@output_destination_translation ascii_text
                                sample_config zapcore.WarnLevel)))
           readonly_world (errorString "open sink: app.log"));
    [reflexivity|right; reflexivity|discriminate|discriminate|reflexivity].
Defined.


(** A child of the sample handle with one field. *)
Lemma WithFields_leaves_original_witness :
  points_to sample_world sample_handle sample_instance
  /\ exists l' w' log',
       logger.Logger_WithFields sample_handle [logger.String "request" "42"]
         sample_world
       = Returned l' w'
       /\ points_to w' l' log'
       /\ zapcore.enc_fields (zapcore.enc (zap.core log'))
          = [("request", zapcore.StringValue "42")]
       /\ points_to w' sample_handle sample_instance.
Proof.
  split; [reflexivity|].
  destruct (WithFields_leaves_original sample_handle
              [logger.String "request" "42"] sample_world sample_instance
              eq_refl)
    as (l' & w' & log' & Hwith & Hl' & Hctx & _ & _ & Hl & _).
  exists l', w', log'. repeat split; assumption.
Defined.

(** ** Further properties of the package *)

(** *** Fields in a line *)

Lemma addFields_app enc (a b : list zap.Field) :
  zapcore.addFields enc (a ++ b) = zapcore.addFields (zapcore.addFields enc a) b.
Proof. unfold zapcore.addFields. apply fold_left_app. Qed.

(** The pairs come out in the order of the fields, after what the encoder
    held. *)
Lemma addFields_pairs enc (fields : list zap.Field) :
  zapcore.addFields enc fields
  = enc ++ concat (map (fun f => zapcore.AddTo f []) fields).
Proof.
  revert enc. induction fields as [|f fields IH]; intros enc; simpl.
  - by rewrite app_nil_r.
  - change (zapcore.addFields (zapcore.AddTo f enc) fields
            = enc ++ zapcore.AddTo f [] ++ concat (map (fun f => zapcore.AddTo f []) fields)).
    rewrite IH, app_assoc. f_equal. destruct f; simpl; by rewrite ?app_nil_r.
Qed.

(** A call through a handle on nothing panics before anything is written. *)
Lemma emit_dangling l sev msg fields w :
  zap.heap w !! logger.Logger_Logger l = None ->
  emit l sev msg fields w = Panicked w.
Proof.
  intros Hl.
  destruct sev; unfold emit, logger.Logger_Debug, logger.Logger_Info,
    logger.Logger_Warn, logger.Logger_Error, logger.Logger_Fatal,
    zap.Logger_Debug, zap.Logger_Info, zap.Logger_Warn, zap.Logger_Error,
    zap.Logger_Fatal, zap.log_at, bind, zap.deref;
    by rewrite Hl.
Qed.

(** X11. A nil error handed to Error leaves no trace: a call whose fields
    include Error(nil), at any position, ends exactly as the call without
    it, on every handle and in every state. *)
Theorem Error_nil_field_is_dropped (l : logger.Logger) (sev : Severity)
  (msg : string) (before after : list zap.Field) (w : zap.World) :
  emit l sev msg (before ++ logger.Error None :: after) w
  = emit l sev msg (before ++ after) w.
Proof.
  assert (Hline : forall log lvl,
            line_of log lvl msg (before ++ logger.Error None :: after)
            = line_of log lvl msg (before ++ after)).
  { intros log lvl. unfold line_of, zapcore.EncodeEntry. f_equal.
    by rewrite !addFields_app. }
  destruct (zap.heap w !! logger.Logger_Logger l) as [log|] eqn:Hl.
  - rewrite !(emit_outcome _ _ _ _ _ _ Hl). simpl. by rewrite Hline.
  - by rewrite !(emit_dangling _ _ _ _ _ Hl).
Qed.


(** *** Fatal, and handles on nothing *)

(** X1. Fatal never returns to its caller.  On a live instance it writes its
    line to every destination of the instance and then ends the process
    with exit code 1; nothing sequenced after it runs.  No threshold
    silences it: through a handle of NewWithConfig the line is added to the
    destination whatever level was configured. *)
Theorem Fatal_writes_then_exits (l : logger.Logger) (msg : string)
  (fields : list zap.Field) (w : zap.World) :
  (forall w', logger.Logger_Fatal l msg fields w <> Returned tt w')
  /\ (forall log,
        points_to w l log ->
        logger.Logger_Fatal l msg fields w
        = Exited 1
            (zap.write_all (zapcore.out (zap.core log))
               (line_of log zapcore.FatalLevel msg fields) w)
        /\ forall B (k : unit -> zap.Go B),
             bind (logger.Logger_Fatal l msg fields) k w
             = Exited 1
                 (zap.write_all (zapcore.out (zap.core log))
                    (line_of log zapcore.FatalLevel msg fields) w))
  /\ (forall config level,
        points_to w l (built config level) ->
        zap.written (final (logger.Logger_Fatal l msg fields w))
          (logger.OutputPath config)
        = zap.written w (logger.OutputPath config)
          ++ [plain_line zapcore.FatalLevel msg (zapcore.addFields [] fields)]).
Proof.
  split; [|split].
  - intros w' Hret. unfold logger.Logger_Fatal in Hret.
    destruct (Logger_Fatal_ends (logger.Logger_Logger l) msg fields w)
      as [[w1 Hex]|Hpanic]; congruence.
  - intros log Hl.
    assert (Hf : logger.Logger_Fatal l msg fields w
                 = Exited 1 (zap.write_all (zapcore.out (zap.core log))
                               (line_of log zapcore.FatalLevel msg fields) w))
      by (by apply log_at_Fatal).
    split; [exact Hf|]. intros B k. unfold bind. by rewrite Hf.
  - intros config level Hl.
    pose proof (built_honors_threshold config level l w SevFatal msg fields Hl)
      as Hh.
    simpl in Hh. by rewrite Enabled_Fatal in Hh.
Qed.

(** The sample handle has the warn threshold; a handle with the fatal
    threshold would do the same. *)
Lemma Fatal_writes_then_exits_witness :
  points_to sample_world sample_handle sample_instance
  /\ logger.Logger_Fatal sample_handle "out of memory" [logger.Int "free" 0]
       sample_world
     = Exited 1
         (zap.write_to "app.log"
            (plain_line zapcore.FatalLevel "out of memory"
               [("free", zapcore.Int64Value 0)]) sample_world).
Proof.
  split; [reflexivity|].
  apply (proj1 (proj2 (Fatal_writes_then_exits sample_handle "out of memory"
                         [logger.Int "free" 0] sample_world))
           sample_instance).
  reflexivity.
Defined.

(** X2. NewLogger does not look at the pointer it wraps.  On a handle that
    wraps a pointer to no instance (nil), every emission method panics, and
    so does Fatalf with an error and WithFields with at least one field,
    all without changing the state; Fatalf with a nil error still exits with
    code 1, and WithFields without fields still returns the handle. *)
Theorem NewLogger_on_nothing (p : zap.ptr) (w : zap.World) :
  zap.heap w !! p = None ->
  (forall sev msg fields,
     emit (logger.NewLogger p) sev msg fields w = Panicked w)
  /\ (forall format e,
        logger.Logger_Fatalf (logger.NewLogger p) format (Some e) w = Panicked w)
  /\ (forall format,
        logger.Logger_Fatalf (logger.NewLogger p) format None w = Exited 1 w)
  /\ (forall f fields,
        logger.Logger_WithFields (logger.NewLogger p) (f :: fields) w = Panicked w)
  /\ logger.Logger_WithFields (logger.NewLogger p) [] w
     = Returned (logger.NewLogger p) w.
Proof.
  intros Hp. repeat split.
  - intros sev msg fields. by apply emit_dangling.
  - intros format e.
    assert (Hf : zap.Logger_Fatal p format [zap.Error (Some e)] w = Panicked w)
      by apply (emit_dangling (logger.NewLogger p) SevFatal _ _ _ Hp).
    unfold logger.Logger_Fatalf, bind.
    change (logger.Logger_Logger (logger.NewLogger p)) with p.
    by rewrite Hf.
  - intros f fields.
    unfold logger.Logger_WithFields, zap.Logger_With, bind, zap.deref. simpl.
    by rewrite Hp.
Qed.

Lemma NewLogger_on_nothing_witness :
  zap.heap fresh_world !! 0%nat = None
  /\ emit (logger.NewLogger 0%nat) SevInfo "started" [] fresh_world
     = Panicked fresh_world.
Proof.
  split; [reflexivity|].
  apply (proj1 (NewLogger_on_nothing 0%nat fresh_world eq_refl)).
Defined.

(** *** Children *)

(** [With] on a live instance, in terms of [child]. *)
Lemma WithFields_live l fields w log :
  points_to w l log ->
  logger.Logger_WithFields l fields w
  = match fields with
    | [] => Returned l w
    | _ => Returned {| logger.Logger_Logger := length (zap.heap w) |}
             (zap.set_heap w (zap.heap w ++ [child log fields]))
    end.
Proof.
  intros Hl. destruct fields as [|f fields].
  - by destruct l.
  - unfold logger.Logger_WithFields, bind.
    by rewrite (Logger_With_deref _ _ _ _ _ Hl).
Qed.

(** X9. Every line written through a child carries the parent's context,
    then the fields the child was made with, then the fields of the call, in
    that order; the child has the parent's threshold and destinations.
    This holds in every later state in which the child's instance is
    live. *)
Theorem WithFields_child_lines (l : logger.Logger) (fields : list zap.Field)
  (w : zap.World) (log : zap.Logger) :
  points_to w l log ->
  exists l' w' log',
    logger.Logger_WithFields l fields w = Returned l' w'
    /\ points_to w' l' log'
    /\ forall w'' sev msg fs,
         points_to w'' l' log' ->
         let after :=
           if zapcore.Enabled (zapcore.LevelEnabler (zap.core log))
                (Severity_Level sev)
           then zap.write_all (zapcore.out (zap.core log))
                  {| zapcore.line_entry :=
                       {| zapcore.Entry_Level := Severity_Level sev;
                          zapcore.Entry_Message := msg |};
                     zapcore.line_fields :=
                       zapcore.addFields
                         (zapcore.enc_fields (zapcore.enc (zap.core log)))
                         (fields ++ fs) |} w''
           else w'' in
         emit l' sev msg fs w''
         = match sev with
           | SevFatal => Exited 1 after
           | _ => Returned tt after
           end.
Proof.
  intros Hl. rewrite (WithFields_live _ _ _ _ Hl).
  destruct fields as [|f fields].
  - exists l, w, log. repeat split; try done.
    intros w'' sev msg fs Hl''. simpl.
    by rewrite (emit_outcome _ _ _ _ _ _ Hl'').
  - eexists _, _, (child log (f :: fields)). split; [reflexivity|].
    split; [apply lookup_alloc|].
    intros w'' sev msg fs Hl''.
    rewrite (emit_outcome _ _ _ _ _ _ Hl''). unfold line_of, zapcore.EncodeEntry.
    cbn [child zap.core zapcore.ioCore_With zapcore.LevelEnabler zapcore.out
         zapcore.enc zapcore.enc_fields].
    by rewrite addFields_app.
Qed.

Lemma WithFields_child_lines_witness :
  points_to sample_world sample_handle sample_instance
  /\ exists l' w',
       logger.Logger_WithFields sample_handle [logger.String "request" "42"]
         sample_world = Returned l' w'
       /\ emit l' SevError "disk full" [logger.Int "free" 0] w'
          = Returned tt
              (zap.write_to "app.log"
                 (plain_line zapcore.ErrorLevel "disk full"
                    [("request", zapcore.StringValue "42");
                     ("free", zapcore.Int64Value 0)]) w').
Proof.
  split; [reflexivity|].
  destruct (WithFields_child_lines sample_handle [logger.String "request" "42"]
              sample_world sample_instance eq_refl)
    as (l' & w' & log' & Hwith & Hl' & Hlines).
  exists l', w'. split; [exact Hwith|].
  exact (Hlines w' SevError "disk full" [logger.Int "free" 0] Hl').
Defined.

(** X10. Two WithFields in a row build the instance that one WithFields
    with the two lists joined builds: a child's content depends on the
    fields added and their order, not on how the additions were grouped.
    Neither way writes anything. *)
Theorem WithFields_twice (l : logger.Logger) (a b : list zap.Field)
  (w : zap.World) (log : zap.Logger) :
  points_to w l log ->
  exists l1 w1 l2 w2 l12 w12 log2,
    logger.Logger_WithFields l a w = Returned l1 w1
    /\ logger.Logger_WithFields l1 b w1 = Returned l2 w2
    /\ logger.Logger_WithFields l (a ++ b) w = Returned l12 w12
    /\ points_to w2 l2 log2
    /\ points_to w12 l12 log2
    /\ zap.sinks w2 = zap.sinks w
    /\ zap.sinks w12 = zap.sinks w.
Proof.
  intros Hl. destruct a as [|fa a]; [destruct b as [|fb b]|].
  - exists l, w, l, w, l, w, log.
    simpl. rewrite !(WithFields_live _ [] _ _ Hl). by repeat split.
  - eexists l, w, _, _, _, _, (child log (fb :: b)).
    rewrite (WithFields_live _ [] _ _ Hl). simpl.
    rewrite (WithFields_live _ (fb :: b) _ _ Hl).
    repeat split; apply lookup_alloc.
  - assert (Hl1 : points_to
              (zap.set_heap w (zap.heap w ++ [child log (fa :: a)]))
              {| logger.Logger_Logger := length (zap.heap w) |}
              (child log (fa :: a)))
      by apply lookup_alloc.
    destruct b as [|fb b];
      eexists _, _, _, _, _, _, _;
      rewrite (WithFields_live _ (fa :: a) _ _ Hl);
      (split; [reflexivity|]);
      rewrite (WithFields_live _ _ _ _ Hl1);
      rewrite (WithFields_live _ ((fa :: a) ++ _) _ _ Hl); simpl;
      (split; [reflexivity|]); (split; [reflexivity|]);
      (split; [|split; [apply lookup_alloc|split; reflexivity]]).
    + rewrite app_nil_r. apply lookup_alloc.
    + replace (child log (fa :: a ++ fb :: b))
        with (child (child log (fa :: a)) (fb :: b)); [apply lookup_alloc|].
      unfold child, zapcore.ioCore_With. simpl. do 3 f_equal.
      change (fa :: a ++ fb :: b) with ((fa :: a) ++ fb :: b).
      by rewrite addFields_app.
Qed.

(** Two additions to the sample handle, and both at once. *)
Lemma WithFields_twice_witness :
  points_to sample_world sample_handle sample_instance
  /\ exists l2 w2 l12 w12 log2,
       bind (logger.Logger_WithFields sample_handle [logger.String "user" "ann"])
         (fun l1 => logger.Logger_WithFields l1 [logger.Int "try" 2])
         sample_world = Returned l2 w2
       /\ logger.Logger_WithFields sample_handle
            [logger.String "user" "ann"; logger.Int "try" 2] sample_world
          = Returned l12 w12
       /\ points_to w2 l2 log2 /\ points_to w12 l12 log2.
Proof.
  split; [reflexivity|].
  destruct (WithFields_twice sample_handle [logger.String "user" "ann"]
              [logger.Int "try" 2] sample_world sample_instance eq_refl)
    as (l1 & w1 & l2 & w2 & l12 & w12 & log2 & H1 & H2 & H12 & Hl2 & Hl12 & _).
  exists l2, w2, l12, w12, log2. unfold bind. rewrite H1.
  repeat split; assumption.
Defined.

(** *** Calls in sequence *)

(** X7. Two emissions in a row through a handle of NewWithConfig leave in
    the destination what was there, then the line of the first call if its
    level is enabled, then the line of the second if its level is enabled:
    lines arrive in call order and none is lost or repeated.  (The first
    call is not Fatal, after which nothing runs.) *)
Theorem emissions_append_in_order (config : logger.LogConfig)
  (level : zapcore.Level) (l : logger.Logger) (w : zap.World)
  (sev1 sev2 : Severity) (msg1 msg2 : string) (fields1 fields2 : list zap.Field) :
  points_to w l (built config level) ->
  sev1 <> SevFatal ->
  zap.written
    (final (bind (emit l sev1 msg1 fields1)
              (fun _ => emit l sev2 msg2 fields2) w))
    (logger.OutputPath config)
  = zap.written w (logger.OutputPath config)
    ++ lines_if (zapcore.Enabled level (Severity_Level sev1))
         (plain_line (Severity_Level sev1) msg1 (zapcore.addFields [] fields1))
    ++ lines_if (zapcore.Enabled level (Severity_Level sev2))
         (plain_line (Severity_Level sev2) msg2 (zapcore.addFields [] fields2)).
Proof.
  intros Hl Hsev1.
  pose proof (emit_keeps_instances l sev1 msg1 fields1 w _ Hl) as Hheap.
  pose proof (built_honors_threshold config level l w sev1 msg1 fields1 Hl) as H1.
  simpl in H1.
  assert (Hret : emit l sev1 msg1 fields1 w
                 = Returned tt (final (emit l sev1 msg1 fields1 w))).
  { rewrite (emit_outcome _ _ _ _ _ _ Hl). by destruct sev1. }
  unfold bind. rewrite Hret.
  set (w1 := final (emit l sev1 msg1 fields1 w)) in *.
  assert (Hl1 : points_to w1 l (built config level))
    by (unfold points_to; by rewrite Hheap).
  pose proof (built_honors_threshold config level l w1 sev2 msg2 fields2 Hl1) as H2.
  simpl in H2. unfold lines_if, plain_line.
  destruct (zapcore.Enabled level (Severity_Level sev2)).
  - rewrite H2.
    destruct (zapcore.Enabled level (Severity_Level sev1)).
    + by rewrite H1, <- app_assoc.
    + rewrite Hret in H1. injection H1 as ->. by rewrite app_nil_l.
  - rewrite H2. simpl. rewrite app_nil_r.
    destruct (zapcore.Enabled level (Severity_Level sev1)).
    + by rewrite H1.
    + rewrite Hret in H1. injection H1 as ->. by rewrite app_nil_r.
Qed.

(** A dropped info call, then an error call, through the sample handle. *)
Lemma emissions_append_in_order_witness :
  points_to sample_world sample_handle sample_instance
  /\ SevInfo <> SevFatal
  /\ zap.written
       (final (bind (emit sample_handle SevInfo "started" [])
                 (fun _ => emit sample_handle SevError "disk full" [])
                 sample_world)) "app.log"
     = [plain_line zapcore.ErrorLevel "disk full" []].
Proof.
  split; [reflexivity|]. split; [discriminate|].
  apply (emissions_append_in_order sample_config zapcore.WarnLevel sample_handle
           sample_world SevInfo SevError "started" "disk full" [] []);
    [reflexivity|discriminate].
Defined.

(** *** Outcomes of the constructor *)

Section ConstructorOutcomes.
Context `{GoStd}.

Lemma newEncoder_unregistered name :
  ~ registered name ->
  zap.newEncoder name logger.encoderConfig = inr (encoding_error name).
Proof.
  intros Hreg. unfold zap.newEncoder, encoding_error. simpl.
  case_decide; [done|].
  rewrite !bool_decide_eq_false_2; [done| |];
    intros Heq; apply Hreg; [by right|by left].
Qed.

(** [Build] on the translated configuration with its final state spelled
    out: the destination opened, three instances more. *)
Lemma Build_succeeds_exact config level w :
  registered (logger.Format config) ->
  opens w (logger.OutputPath config) ->
  exists a b,
    zap.Build (logger.zapConfig config level) [zap.AddCallerSkip 1] w
    = Returned (inl (length (zap.heap w) + 2)%nat)
        (zap.set_heap (opened (logger.OutputPath config) w)
           (zap.heap w ++ [a; b; built config level])).
Proof.
  intros Hreg Hopen.
  unfold zap.Build. simpl. rewrite (newEncoder_registered _ Hreg).
  unfold zap.openSinks. simpl. rewrite outputPaths_verbatim.
  unfold bind at 1. unfold bind at 1.
  rewrite (Open_one_opens _ _ Hopen).
  unfold bind at 1.
  rewrite (Open_one_opens "stderr" _ (or_intror (or_introl eq_refl))).
  change (opened "stderr" ?x) with x. unfold ret at 1.
  unfold bind at 1, zap.New, bind at 1, zap.alloc at 1.
  rewrite WithOptions_alloc. unfold bind at 1.
  rewrite WithOptions_alloc_second.
  unfold ret. rewrite heap_opened. eexists _, _. reflexivity.
Qed.

(** The four ways [NewWithConfig] can end, in the order in which the code
    reaches them. *)
Lemma NewWithConfig_cases config w :
  (exists detail,
     zapcore.UnmarshalText (logger.Level config) = inr detail
     /\ logger.NewWithConfig config w
        = Returned (inr (Errorf_v "invalid log level: " detail)) w)
  \/ (exists level,
        zapcore.UnmarshalText (logger.Level config) = inl level
        /\ ~ registered (logger.Format config)
        /\ logger.NewWithConfig config w
           = Returned (inr (encoding_error (logger.Format config))) w)
  \/ (exists level e,
        zapcore.UnmarshalText (logger.Level config) = inl level
        /\ registered (logger.Format config)
        /\ ~ opens w (logger.OutputPath config)
        /\ zap.fs_open w (logger.OutputPath config) = Some e
        /\ logger.NewWithConfig config w = Returned (inr e) w)
  \/ (exists level a b,
        zapcore.UnmarshalText (logger.Level config) = inl level
        /\ registered (logger.Format config)
        /\ opens w (logger.OutputPath config)
        /\ logger.NewWithConfig config w
           = Returned
               (inl {| logger.Logger_Logger := (length (zap.heap w) + 2)%nat |})
               (zap.set_heap (opened (logger.OutputPath config) w)
                  (zap.heap w ++ [a; b; built config level]))).
Proof.
  destruct (zapcore.UnmarshalText (logger.Level config)) as [level|detail] eqn:Hlvl.
  2: { left. exists detail. split; [done|]. by apply NewWithConfig_rejected. }
  right.
  destruct (decide (logger.Format config = "console" \/ logger.Format config = "json"))
    as [Hreg|Hreg].
  2: { left. exists level. repeat split; try done.
       rewrite (NewWithConfig_parsed _ _ _ Hlvl). unfold bind.
       by rewrite (Build_encoder_fails _ _ _ _ (newEncoder_unregistered _ Hreg)). }
  right.
  destruct (decide (logger.OutputPath config = "stdout")) as [Hout|Hout].
  { right. destruct (Build_succeeds_exact config level w Hreg (or_introl Hout))
      as (a & b & Hb).
    exists level, a, b. repeat split; try done; [by left|].
    rewrite (NewWithConfig_parsed _ _ _ Hlvl). unfold bind. by rewrite Hb. }
  destruct (decide (logger.OutputPath config = "stderr")) as [Herr|Herr].
  { right.
    destruct (Build_succeeds_exact config level w Hreg (or_intror (or_introl Herr)))
      as (a & b & Hb).
    exists level, a, b. repeat split; try done; [by right; left|].
    rewrite (NewWithConfig_parsed _ _ _ Hlvl). unfold bind. by rewrite Hb. }
  destruct (zap.fs_open w (logger.OutputPath config)) as [e|] eqn:He.
  - left. exists level, e. repeat split; try done.
    + intros [?|[?|Hnone]]; try done. by rewrite He in Hnone.
    + rewrite (NewWithConfig_parsed _ _ _ Hlvl). unfold bind.
      by rewrite (Build_open_fails _ _ _ _ Hreg Hout Herr He).
  - right.
    destruct (Build_succeeds_exact config level w Hreg
                (or_intror (or_intror He))) as (a & b & Hb).
    exists level, a, b. repeat split; try done; [by right; right|].
    rewrite (NewWithConfig_parsed _ _ _ Hlvl). unfold bind. by rewrite Hb.
Qed.

(** X4. NewWithConfig always returns: it never panics and never ends the
    process.  When it returns an error, the state is exactly what it was:
    no file has been created, no instance is left behind.  When it returns
    a handle, the handle is on an instance that did not exist before, every
    instance that did exist is unchanged (so handles built earlier are
    unaffected and never alias the new one), and no destination has lost or
    gained a line. *)
Theorem NewWithConfig_outcome (config : logger.LogConfig) (w : zap.World) :
  exists r w',
    logger.NewWithConfig config w = Returned r w'
    /\ match r with
       | inr _ => w' = w
       | inl l =>
           zap.heap w !! logger.Logger_Logger l = None
           /\ is_Some (zap.heap w' !! logger.Logger_Logger l)
           /\ (forall p log, zap.heap w !! p = Some log ->
                             zap.heap w' !! p = Some log)
           /\ (forall path, zap.written w' path = zap.written w path)
           /\ zap.fs_open w' = zap.fs_open w
       end.
Proof.
  destruct (NewWithConfig_cases config w)
    as [(detail & _ & ->)|[(level & _ & _ & ->)|[(level & e & _ & _ & _ & _ & ->)
       |(level & a & b & _ & _ & _ & ->)]]];
    eexists _, _; (split; [reflexivity|]); try reflexivity.
  simpl. repeat split.
  - apply lookup_ge_None. lia.
  - exists (built config level). apply lookup_alloc_third.
  - intros p log Hp. by apply lookup_app_l_Some.
  - intros path. apply written_opened.
  - apply fs_open_opened.
Qed.

(** X3. With a level that parses, NewWithConfig returns a handle exactly
    when the format is console or json and the destination opens.  The
    format is looked at first: with any other format the error is the
    engine's complaint about the encoding, whether or not the destination
    would open, and the destination is not touched.  With a good format and
    a destination that does not open, the error is the one from opening
    it. *)
Theorem NewWithConfig_succeeds_iff (config : logger.LogConfig)
  (level : zapcore.Level) (w : zap.World) :
  zapcore.UnmarshalText (logger.Level config) = inl level ->
  ((exists l w', logger.NewWithConfig config w = Returned (inl l) w')
   <-> registered (logger.Format config) /\ opens w (logger.OutputPath config))
  /\ (~ registered (logger.Format config) ->
      logger.NewWithConfig config w
      = Returned (inr (encoding_error (logger.Format config))) w)
  /\ (registered (logger.Format config) ->
      ~ opens w (logger.OutputPath config) ->
      exists e,
        zap.fs_open w (logger.OutputPath config) = Some e
        /\ logger.NewWithConfig config w = Returned (inr e) w).
Proof.
  intros Hlvl.
  destruct (NewWithConfig_cases config w)
    as [(detail & Hd & _)|[(lv & _ & Hreg & Hnew)|[(lv & e & _ & Hreg & Hopen & He & Hnew)
       |(lv & a & b & _ & Hreg & Hopen & Hnew)]]].
  - by rewrite Hd in Hlvl.
  - split; [split|split].
    + intros (l & w' & Hok). rewrite Hnew in Hok. discriminate Hok.
    + intros [Hr _]. contradiction.
    + intros _. exact Hnew.
    + intros Hr. contradiction.
  - split; [split|split].
    + intros (l & w' & Hok). rewrite Hnew in Hok. discriminate Hok.
    + intros [_ Ho]. contradiction.
    + intros Hn. contradiction.
    + intros _ _. by exists e.
  - split; [split|split].
    + intros _. by split.
    + intros _. by eexists _, _.
    + intros Hn. contradiction.
    + intros _ Hn. contradiction.
Qed.

(** X5. The severity string matters only through the level it parses to:
    two configurations with the same destination and format whose strings
    parse to the same level end the same way from every state.  So the
    empty string, which the parser reads as info, and "info" are
    interchangeable, and so are the lower- and upper-case spellings. *)
Theorem NewWithConfig_level_by_value (c1 c2 : logger.LogConfig)
  (level : zapcore.Level) (w : zap.World) :
  zapcore.UnmarshalText (logger.Level c1) = inl level ->
  zapcore.UnmarshalText (logger.Level c2) = inl level ->
  logger.OutputPath c1 = logger.OutputPath c2 ->
  logger.Format c1 = logger.Format c2 ->
  logger.NewWithConfig c1 w = logger.NewWithConfig c2 w.
Proof.
  intros H1 H2 Hout Hfmt.
  rewrite (NewWithConfig_parsed _ _ _ H1), (NewWithConfig_parsed _ _ _ H2).
  unfold logger.zapConfig. by rewrite !outputPaths_verbatim, Hout, Hfmt.
Qed.

End ConstructorOutcomes.

(** An unknown format is reported even where no file would open. *)
Lemma NewWithConfig_succeeds_iff_witness :
  @zapcore.UnmarshalText ascii_text "debug" = inl zapcore.DebugLevel
  /\ ~ registered "xml"
  /\ @logger.NewWithConfig ascii_text
       {| logger.Level := "debug"; logger.OutputPath := "app.log";
          logger.Format := "xml" |} readonly_world
     = Returned
         (inr (errorString ("no encoder registered for name " +:+ ascii_Quote "xml")))
         readonly_world.
Proof.
  assert (Hreg : ~ registered "xml") by (intros [Hx|Hx]; discriminate Hx).
  split; [reflexivity|]. split; [exact Hreg|].
  apply (proj1 (proj2 (@NewWithConfig_succeeds_iff ascii_text
                         {| logger.Level := "debug"; logger.OutputPath := "app.log";
                            logger.Format := "xml" |} zapcore.DebugLevel
                         readonly_world eq_refl)) Hreg).
Defined.

(** The empty severity string and "info". *)
Lemma NewWithConfig_level_by_value_witness :
  @zapcore.UnmarshalText ascii_text "" = inl zapcore.InfoLevel
  /\ @zapcore.UnmarshalText ascii_text "info" = inl zapcore.InfoLevel
  /\ @logger.NewWithConfig ascii_text
       {| logger.Level := ""; logger.OutputPath := "app.log";
          logger.Format := "json" |} fresh_world
     = @logger.NewWithConfig ascii_text
         {| logger.Level := "info"; logger.OutputPath := "app.log";
            logger.Format := "json" |} fresh_world.
Proof.
  split; [reflexivity|]. split; [reflexivity|].
  apply (@NewWithConfig_level_by_value ascii_text
           {| logger.Level := ""; logger.OutputPath := "app.log";
              logger.Format := "json" |}
           {| logger.Level := "info"; logger.OutputPath := "app.log";
              logger.Format := "json" |} zapcore.InfoLevel fresh_world);
    reflexivity.
Defined.

(** A severity string that does not parse: the error comes back and the
    fresh world is still fresh. *)
Lemma NewWithConfig_outcome_witness :
  exists r w',
    @logger.NewWithConfig ascii_text
      {| logger.Level := "loud"; logger.OutputPath := "app.log";
         logger.Format := "json" |} fresh_world = Returned r w'
    /\ match r with
       | inr _ => w' = fresh_world
       | inl l =>
           zap.heap fresh_world !! logger.Logger_Logger l = None
           /\ is_Some (zap.heap w' !! logger.Logger_Logger l)
           /\ (forall p log, zap.heap fresh_world !! p = Some log ->
                             zap.heap w' !! p = Some log)
           /\ (forall path, zap.written w' path = zap.written fresh_world path)
           /\ zap.fs_open w' = zap.fs_open fresh_world
       end.
Proof.
  apply (@NewWithConfig_outcome ascii_text
           {| logger.Level := "loud"; logger.OutputPath := "app.log";
              logger.Format := "json" |} fresh_world).
Defined.

(** *** Errors that carry more than their text *)

(** Error on a formatter error: the text, then the verbose text. *)
Lemma Error_formatter_renders_verbose :
  zapcore.AddTo
    (logger.Error (Some (errorFormatter "disk full" "disk full at store.go:41")))
    []
  = [("error", zapcore.StringValue "disk full");
     ("errorVerbose", zapcore.StringValue "disk full at store.go:41")].
Proof. reflexivity. Qed.

(** Error on a group of two: the joined text, then the members, each an
    object with its own text under "error". *)
Lemma Error_group_renders_causes :
  zapcore.AddTo
    (logger.Error
       (Some (errorGroup "disk full; port in use"
                [errorString "disk full"; errorString "port in use"])))
    []
  = [("error", zapcore.StringValue "disk full; port in use");
     ("errorCauses",
      zapcore.ArrayValue
        [zapcore.ObjectValue [("error", zapcore.StringValue "disk full")];
         zapcore.ObjectValue [("error", zapcore.StringValue "port in use")]])].
Proof. reflexivity. Qed.

(** Fatalf with a formatter error through the sample handle: both pairs are
    in the line that is written before the exit. *)
Lemma Fatalf_formatter_error_line :
  logger.Logger_Fatalf sample_handle "cannot start"
    (Some (errorFormatter "port in use" "port in use at net.go:7")) sample_world
  = Exited 1
      (zap.write_to "app.log"
         (plain_line zapcore.FatalLevel "cannot start"
            [("error", zapcore.StringValue "port in use");
             ("errorVerbose", zapcore.StringValue "port in use at net.go:7")])
         sample_world).
Proof. reflexivity. Qed.
